(** * hermpy.boundary_crossings

    A shallow embedding of [src/hermpy/boundary_crossings.py] and the
    properties of its three functions:

    - [Load_Crossings]: unpickle a table of crossing intervals and project it
      onto six columns;
    - [Plot_Crossing_Intervals]: mark the intervals that touch a plotted
      window with dashed vertical lines (and a label) in absolute time;
    - [Plot_Crossings_As_Minutes_Before]: the same, with the lines placed in
      minutes before a reference apoapsis.

    Modelling conventions.
    - The time columns of a crossings table are the [datetime64[ns]] columns
      pandas builds by default: a cell is a [Timestamp], its number of
      nanoseconds since the epoch, or [NaT]; a [Timedelta] is a number of
      nanoseconds.  The [datetime] arguments of the plotting functions are
      given in the same unit.  Halving a [Timedelta] goes through a double
      and truncates, as pandas does.  Timestamps are unbounded integers:
      the range check of pandas (about 292 years for a [Timedelta]) is not
      modelled.
    - A Python [float] is idealised as an exact rational ([Qc]) or NaN;
      float division raises [ZeroDivisionError] on a zero divisor, as in
      Python.
    - A [str] is a [string] of 8-bit characters; [str.upper] is modelled on
      the ASCII letters.
    - [ax.text] and [ax.axvline] record the artist they add with the
      arguments they were given; what matplotlib does with those arguments
      is outside the model.
    - Exceptions are values of [exn]; a computation is a [result], and a
      computation that touches the objects passed by the caller (the axes,
      the crossings table) threads a [Heap]. *)

From Stdlib Require Import Ascii QArith Qcanon.
From stdpp Require Import gmap strings list fin_maps numbers.

(* ===================================================================== *)
(** ** Python values, exceptions and results                              *)
(* ===================================================================== *)

(** The exceptions the module can raise.  None of them is raised by a
    [raise] statement of the module itself: each one comes out of a
    built-in or library operation the module calls. *)
Inductive exn :=
| FileNotFoundError            (* open(path, "rb") on a missing file      *)
| IsADirectoryError            (* open(path, "rb") on a directory         *)
| PermissionError              (* open(path, "rb") on an unreadable file  *)
| UnpicklingError              (* pickle.load on malformed content        *)
| EOFError                     (* pickle.load on truncated content        *)
| KeyError (key : string)      (* obj[key] where key is absent            *)
| TypeError                    (* an operand of the wrong type            *)
| AttributeError               (* a method the object does not have       *)
| ZeroDivisionError.           (* float division by zero                  *)

Inductive result (A : Type) :=
| Ok (a : A)
| Raise (e : exn).
Arguments Ok {A} a.
Arguments Raise {A} e.

Global Instance result_ret : MRet result := @Ok.
Global Instance result_bind : MBind result := λ A B f r,
  match r with
  | Ok a => f a
  | Raise e => Raise e
  end.

(** The values that occur in the cells of a crossings table, and as
    positions on the axes. *)
Inductive value :=
| VTime (t : Z)        (* a Timestamp, nanoseconds since the epoch  *)
| VNaT                 (* the missing Timestamp                     *)
| VFloat (x : Qc)      (* a float                                   *)
| VStr (s : string)    (* a str                                     *)
| VNaN.                (* the float NaN                             *)

Global Instance value_eq_dec : EqDecision value.
Proof. solve_decision. Defined.

(* ===================================================================== *)
(** ** datetime, Timestamp and Timedelta                                  *)
(* ===================================================================== *)

Module datetime.
Local Open Scope Z_scope.

(** [a / b] rounded to the nearest integer, ties to even: the rounding of
    a double. *)
Definition round_half_even (a b : Z) : Z :=
  let q := a `div` b in
  let r := 2 * (a `mod` b) in
  let greater_than_half := if bool_decide (0 < b) then bool_decide (b < r)
                           else bool_decide (r < b) in
  if greater_than_half || (bool_decide (r = b) && Z.odd q) then q + 1 else q.

(** [Timedelta / 2]: pandas divides the number of nanoseconds as a double
    and truncates the quotient to an integer.  Below [2^53] the quotient
    is exact and the result is the number halved towards zero; from
    [2^53] on the quotient is first rounded to the 53 bits of a double,
    ties to even. *)
Definition Timedelta_truediv_2 (td : Z) : Z :=
  if bool_decide (Z.abs td < 2 ^ 53) then td `quot` 2
  else
    let j := Z.log2 (Z.abs td) - 53 in
    2 ^ j * round_half_even td (2 ^ (j + 1)).

(** [Timedelta.total_seconds()], a float. *)
Definition total_seconds (td : Z) : Qc := (Qc_of_Z td / Qc_of_Z 1000000000)%Qc.

(** [timedelta(minutes=m)] and [timedelta(seconds=s)]. *)
Definition minutes (m : Z) : Z := m * 60000000000.
Definition seconds (s : Z) : Z := s * 1000000000.

End datetime.

(** Float division [a / b]. *)
Definition float_truediv (a b : Qc) : result Qc :=
  if decide (b = 0%Qc) then Raise ZeroDivisionError else Ok (a / b)%Qc.

(** Float division [nan / b]. *)
Definition nan_truediv (b : Qc) : result value :=
  if decide (b = 0%Qc) then Raise ZeroDivisionError else Ok VNaN.

(* ===================================================================== *)
(** ** str                                                                *)
(* ===================================================================== *)

Module str.

Definition upper_ascii (c : ascii) : ascii :=
  let n := nat_of_ascii c in
  if bool_decide (97 ≤ n ∧ n ≤ 122)%nat then ascii_of_nat (n - 32) else c.

(** [s.upper()]. *)
Fixpoint upper (s : string) : string :=
  match s with
  | EmptyString => EmptyString
  | String c s' => String (upper_ascii c) (upper s')
  end.

(** [s.startswith(p)]. *)
Fixpoint startswith (s p : string) : bool :=
  match p, s with
  | EmptyString, _ => true
  | String _ _, EmptyString => false
  | String a p', String c s' => bool_decide (a = c) && startswith s' p'
  end.

(** [s.replace(old, new)] for a non-empty [old]: the occurrences of [old]
    are replaced left to right, without overlap.  [skip] counts the
    characters of a match still to be dropped. *)
Fixpoint replace_from (skip : nat) (old new s : string) : string :=
  match s with
  | EmptyString => EmptyString
  | String c s' =>
      match skip with
      | S k => replace_from k old new s'
      | O =>
          if startswith s old
          then new +:+ replace_from (String.length old - 1) old new s'
          else String c (replace_from O old new s')
      end
  end.

Definition replace (s old new : string) : string := replace_from O old new s.

End str.

(* ===================================================================== *)
(** ** pandas                                                             *)
(* ===================================================================== *)

Module pandas.

(** A [Series] with the default integer index is the list of its values. *)
Abbreviation Series := (list value).

(** A [DataFrame]: the length of its index and its named columns. *)
Record DataFrame := mkDataFrame {
  index_len : nat;
  columns : gmap string (list value);
}.

(** A frame is aligned when every column spans the whole index. *)
Definition aligned (df : DataFrame) : Prop :=
  ∀ k col, columns df !! k = Some col → length col = index_len df.

(** [df[key]]. *)
Definition getitem (df : DataFrame) (key : string) : result Series :=
  match columns df !! key with
  | Some col => Ok col
  | None => Raise (KeyError key)
  end.

(** The missing value of a column: NaT in a column of timestamps, NaN in
    any other. *)
Definition is_timestamp (v : value) : bool :=
  match v with
  | VTime _ | VNaT => true
  | _ => false
  end.

Definition missing_value (s : Series) : value :=
  match s with
  | [] => VNaN
  | _ :: _ => if forallb is_timestamp s then VNaT else VNaN
  end.

(** [Series.reindex(range(n))]: cut or fill with the missing value to
    length [n].  A Series without values is taken to be one of floats. *)
Definition reindex (n : nat) (s : Series) : Series :=
  take n s ++ replicate (n - length s) (missing_value s).

(** [pd.DataFrame(data)] for a dict of Series: the index is the union of
    the indices of the Series, and each Series is aligned on it. *)
Definition DataFrame_of_dict (data : list (string * Series)) : DataFrame :=
  let n := max_list (map (λ kv, length (snd kv)) data) in
  {| index_len := n;
     columns := list_to_map (map (λ kv, (fst kv, reindex n (snd kv))) data) |}.

(** One row of [df.iterrows()]: a Series indexed by the column names. *)
Definition row (df : DataFrame) (i : nat) : gmap string value :=
  omap (λ col : list value, col !! i) (columns df).

Definition iterrows (df : DataFrame) : list (gmap string value) :=
  map (row df) (seq 0 (index_len df)).

(** [row[key]]. *)
Definition row_getitem (r : gmap string value) (key : string) : result value :=
  match r !! key with
  | Some v => Ok v
  | None => Raise (KeyError key)
  end.

End pandas.
Import pandas.

(** What [pickle.load] can hand back: a frame, a dict of Series, or an
    object that has no subscript with a string key (a list, a number,
    [None]). *)
Inductive pyobj :=
| PyDataFrame (df : DataFrame)
| PyDict (d : gmap string (list value))
| PyOther.

(** [obj[key]]. *)
Definition obj_getitem (o : pyobj) (key : string) : result Series :=
  match o with
  | PyDataFrame df => getitem df key
  | PyDict d =>
      match d !! key with
      | Some col => Ok col
      | None => Raise (KeyError key)
      end
  | PyOther => Raise TypeError
  end.

(** What a path of the file system leads to. *)
Inductive node :=
| File (content : list Byte.byte)
| Directory
| Unreadable.

(* ===================================================================== *)
(** ** Load_Crossings                                                     *)
(* ===================================================================== *)

Section Load.

(** The file system and the pickle decoder, which returns the decoded
    object or raises the exception of its own choosing. *)
Variable fs : gmap string node.
Variable pickle_load : list Byte.byte → result pyobj.

(** [open(path, "rb")], read to the end. *)
Definition open (path : string) : result (list Byte.byte) :=
  match fs !! path with
  | Some (File content) => Ok content
  | Some Directory => Raise IsADirectoryError
  | Some Unreadable => Raise PermissionError
  | None => Raise FileNotFoundError
  end.

Definition Load_Crossings (path : string) : result DataFrame :=
  crossings_file ← open path;
  crossings_data ← pickle_load crossings_file;
  c_start ← obj_getitem crossings_data "start";
  c_end ← obj_getitem crossings_data "end";
  c_start_x ← obj_getitem crossings_data "start_x_msm";
  c_start_y ← obj_getitem crossings_data "start_y_msm";
  c_start_z ← obj_getitem crossings_data "start_z_msm";
  c_type ← obj_getitem crossings_data "Type";
  let reformatted_crossings_data :=
    DataFrame_of_dict
      [ ("start", c_start);
        ("end", c_end);
        ("start_x_msm", c_start_x);
        ("start_y_msm", c_start_y);
        ("start_z_msm", c_start_z);
        ("type", c_type) ] in
  Ok reformatted_crossings_data.

End Load.

(* ===================================================================== *)
(** ** pyplot                                                             *)
(* ===================================================================== *)

Module pyplot.

Inductive transform := transData | transAxes.

Global Instance transform_eq_dec : EqDecision transform.
Proof. solve_decision. Defined.

(** What a call leaves on the axes, with the arguments it was given: the
    horizontal position of a text is a float, that of a line a float or
    a timestamp. *)
Inductive artist :=
| Text (x : value) (y : Qc) (s : string) (tr : transform) (color ha va : string)
| AxVLine (x : value) (color ls : string).

Global Instance artist_eq_dec : EqDecision artist.
Proof. solve_decision. Defined.

(** An [Axes] object: the artists added to it, oldest first. *)
Definition Axes := list artist.

End pyplot.
Import pyplot.

(* ===================================================================== *)
(** ** The objects of the caller, and computations over them             *)
(* ===================================================================== *)

(** The two mutable objects that the plotting functions receive by
    reference: the [crossings] frame and the axes [ax]. *)
Record Heap := mkHeap {
  crossings_obj : DataFrame;
  ax_obj : Axes;
}.

Definition M (A : Type) : Type := Heap → result A * Heap.

Global Instance M_ret : MRet M := λ A a h, (Ok a, h).
Global Instance M_bind : MBind M := λ A B f m h,
  match m h with
  | (Ok a, h') => f a h'
  | (Raise e, h') => (Raise e, h')
  end.

(** A pure expression inside a stateful computation. *)
Definition lift {A} (r : result A) : M A := λ h, (r, h).

(** [crossings.iterrows()]. *)
Definition crossings_iterrows : M (list (gmap string value)) :=
  λ h, (Ok (iterrows (crossings_obj h)), h).

(** [ax.text(x, y, s, transform=ax.transAxes, color=color, ha=ha, va=va)]. *)
Definition ax_text (x : value) (y : Qc) (s : string) (tr : transform)
    (color ha va : string) : M unit :=
  λ h, (Ok (), {| crossings_obj := crossings_obj h;
                  ax_obj := ax_obj h ++ [Text x y s tr color ha va] |}).

(** [ax.axvline(x, color=color, ls=ls)]. *)
Definition ax_axvline (x : value) (color ls : string) : M unit :=
  λ h, (Ok (), {| crossings_obj := crossings_obj h;
                  ax_obj := ax_obj h ++ [AxVLine x color ls] |}).

(** [for x in xs: body(x)]. *)
Fixpoint for_ {A} (xs : list A) (body : A → M unit) : M unit :=
  match xs with
  | [] => mret ()
  | x :: xs' => body x ;; for_ xs' body
  end.

(* ===================================================================== *)
(** ** Operators on the cells of a row                                    *)
(* ===================================================================== *)

(** [v > t] and [v < t] for a datetime [t]: a comparison with NaT is
    false, a float or a str cannot be compared with a datetime. *)
Definition value_gt (v : value) (t : Z) : result bool :=
  match v with
  | VTime x => Ok (bool_decide (t < x)%Z)
  | VNaT => Ok false
  | _ => Raise TypeError
  end.

Definition value_lt (v : value) (t : Z) : result bool :=
  match v with
  | VTime x => Ok (bool_decide (x < t)%Z)
  | VNaT => Ok false
  | _ => Raise TypeError
  end.

(** A [Timedelta], or NaT. *)
Abbreviation Timedelta := (option Z).

(** [a - b] for a timestamp [b] or NaT.  Where the loops use it, [b] is
    [row["start"]], which has been compared with a datetime before. *)
Definition value_sub (a b : value) : result Timedelta :=
  match a, b with
  | VTime x, VTime y => Ok (Some (x - y)%Z)
  | VTime _, VNaT | VNaT, VTime _ | VNaT, VNaT => Ok None
  | _, _ => Raise TypeError
  end.

(** [td / 2]. *)
Definition Timedelta_halved (td : Timedelta) : Timedelta :=
  datetime.Timedelta_truediv_2 <$> td.

(** [a + td]. *)
Definition value_add_timedelta (a : value) (td : Timedelta) : result value :=
  match a, td with
  | VTime x, Some d => Ok (VTime (x + d)%Z)
  | VTime _, None | VNaT, _ => Ok VNaT
  | _, _ => Raise TypeError
  end.

(** [t - v] for a datetime [t]. *)
Definition datetime_sub_value (t : Z) (v : value) : result Timedelta :=
  match v with
  | VTime x => Ok (Some (t - x)%Z)
  | VNaT => Ok None
  | _ => Raise TypeError
  end.

(** [v.upper().replace("_", " ")]: only a str has [upper]. *)
Definition value_upper_replace (v : value) : result string :=
  match v with
  | VStr s => Ok (str.replace (str.upper s) "_" " ")
  | _ => Raise AttributeError
  end.

(** [a and b], [a or b] on conditions that may raise: the right operand is
    evaluated only when the left one does not decide. *)
Definition py_and (a b : result bool) : result bool :=
  x ← a; if x : bool then b else Ok false.

Definition py_or (a b : result bool) : result bool :=
  x ← a; if x : bool then Ok true else b.

(* ===================================================================== *)
(** ** The two plotting functions                                         *)
(* ===================================================================== *)

(** The test of both loops:
    [(row["start"] > start and row["start"] < end) or
     (row["end"] > start and row["end"] < end)]. *)
Definition crossing_in_plot (row : gmap string value) (start end_ : Z)
    : result bool :=
  py_or
    (py_and (v ← row_getitem row "start"; value_gt v start)
            (v ← row_getitem row "start"; value_lt v end_))
    (py_and (v ← row_getitem row "end"; value_gt v start)
            (v ← row_getitem row "end"; value_lt v end_)).

(** [row["start"] + (row["end"] - row["start"]) / 2], a timestamp or NaT. *)
Definition midpoint_of (row : gmap string value) : result value :=
  a ← row_getitem row "start";
  e ← row_getitem row "end";
  s ← row_getitem row "start";
  d ← value_sub e s;
  value_add_timedelta a (Timedelta_halved d).

(** [(midpoint - start).total_seconds() / (end - start).total_seconds()]
    for a midpoint that is a timestamp. *)
Definition label_position (midpoint start end_ : Z) : result Qc :=
  float_truediv (datetime.total_seconds (midpoint - start))
                (datetime.total_seconds (end_ - start)).

(** The same expression for the midpoint as the loops have it: with NaT
    for midpoint the dividend is NaN. *)
Definition label_position_of (midpoint : value) (start end_ : Z)
    : result value :=
  match midpoint with
  | VTime m => x ← label_position m start end_; Ok (VFloat x)
  | VNaT => nan_truediv (datetime.total_seconds (end_ - start))
  | _ => Raise TypeError
  end.

Definition Plot_Crossing_Intervals_body (start end_ : Z) (label : bool)
    (color : string) (row : gmap string value) : M unit :=
  in_plot ← lift (crossing_in_plot row start end_);
  if in_plot : bool then
    midpoint ← lift (midpoint_of row);
    (if label then
       let height : Qc := Q2Qc (9 # 10) in
       x ← lift (label_position_of midpoint start end_);
       text ← lift (row_getitem row "type" ≫= value_upper_replace);
       ax_text x height text transAxes color "center" "center"
     else mret ());;
    line_start ← lift (row_getitem row "start");
    ax_axvline line_start color "dashed";;
    line_end ← lift (row_getitem row "end");
    ax_axvline line_end color "dashed"
  else mret ().

Definition Plot_Crossing_Intervals (start end_ : Z) (label : bool)
    (color : string) : M unit :=
  rows ← crossings_iterrows;
  for_ rows (Plot_Crossing_Intervals_body start end_ label color).

(** [(apoapsis_time - v).total_seconds() / 60]. *)
Definition minutes_before (apoapsis_time : Z) (v : value) : result value :=
  td ← datetime_sub_value apoapsis_time v;
  match td with
  | Some d => x ← float_truediv (datetime.total_seconds d) (Qc_of_Z 60);
              Ok (VFloat x)
  | None => nan_truediv (Qc_of_Z 60)
  end.

Definition Plot_Crossings_As_Minutes_Before_body (data_start data_end : Z)
    (apoapsis_time : Z) (label : bool) (height : Qc) (color : string)
    (row : gmap string value) : M unit :=
  in_plot ← lift (crossing_in_plot row data_start data_end);
  if in_plot : bool then
    midpoint ← lift (midpoint_of row);
    start_minutes ← lift (row_getitem row "start" ≫= minutes_before apoapsis_time);
    end_minutes ← lift (row_getitem row "end" ≫= minutes_before apoapsis_time);
    (if label then
       x ← lift (label_position_of midpoint data_start data_end);
       text ← lift (row_getitem row "type" ≫= value_upper_replace);
       ax_text x height text transAxes color "center" "center"
     else mret ());;
    ax_axvline start_minutes color "dashed";;
    ax_axvline end_minutes color "dashed"
  else mret ().

Definition Plot_Crossings_As_Minutes_Before (data_start data_end : Z)
    (apoapsis_time : Z) (label : bool) (height : Qc) (color : string) : M unit :=
  rows ← crossings_iterrows;
  for_ rows (Plot_Crossings_As_Minutes_Before_body data_start data_end
               apoapsis_time label height color).

(** The defaults of the keyword parameters. *)
Definition default_label : bool := true.
Definition default_height : Qc := Q2Qc (9 # 10).
Definition default_color : string := "orange".

(* ===================================================================== *)
(** ** Crossing intervals: the typed reading of a table                   *)
(* ===================================================================== *)

(** A row of a crossings table as the plotting functions use it: two
    timestamps and a type name. *)
Record interval := mkInterval {
  i_start : Z;
  i_end : Z;
  i_type : string;
}.

Definition as_interval (r : gmap string value) : option interval :=
  match r !! "start", r !! "end", r !! "type" with
  | Some (VTime s), Some (VTime e), Some (VStr ty) => Some (mkInterval s e ty)
  | _, _, _ => None
  end.

(** The intervals of a table whose rows all read as intervals. *)
Definition table_intervals (df : DataFrame) : option (list interval) :=
  mapM as_interval (iterrows df).

(** The selection rule in the words of the specification: a timestamp
    strictly inside the open window, for the start or for the end. *)
Definition strictly_inside (ws we t : Z) : Prop := (ws < t ∧ t < we)%Z.

Definition selected (ws we : Z) (iv : interval) : Prop :=
  strictly_inside ws we (i_start iv) ∨ strictly_inside ws we (i_end iv).

Global Instance selected_dec ws we iv : Decision (selected ws we iv).
Proof. unfold selected, strictly_inside. apply _. Defined.

(** The midpoint [start + (end - start) / 2] as the loops compute it on a
    row with two timestamps. *)
Definition midpoint (iv : interval) : Z :=
  (i_start iv + datetime.Timedelta_truediv_2 (i_end iv - i_start iv))%Z.

(** The fraction [(t - ws) / (we - ws)] of the window, in seconds. *)
Definition window_fraction (ws we t : Z) : Qc :=
  (datetime.total_seconds (t - ws) / datetime.total_seconds (we - ws))%Qc.

(** A timedelta in minutes. *)
Definition total_minutes (td : Z) : Qc := (Qc_of_Z td / Qc_of_Z 60000000000)%Qc.

(** The label of a type in the words of the specification: every letter
    in upper case and every underscore turned into a space. *)
Definition normalise_char (c : ascii) : ascii :=
  if decide (c = "_"%char) then " "%char else str.upper_ascii c.

Fixpoint normalise (s : string) : string :=
  match s with
  | EmptyString => EmptyString
  | String c s' => String (normalise_char c) (normalise s')
  end.

(** [draw h l]: the heap [h] with the artists [l] added to its axes. *)
Definition draw (h : Heap) (l : list artist) : Heap :=
  {| crossings_obj := crossings_obj h; ax_obj := ax_obj h ++ l |}.

(** What each loop adds to the axes for one interval. *)
Definition markers_absolute (ws we : Z) (label : bool) (color : string)
    (iv : interval) : list artist :=
  if decide (selected ws we iv) then
    (if label then
       [Text (VFloat (window_fraction ws we (midpoint iv))) (Q2Qc (9 # 10))
          (normalise (i_type iv)) transAxes color "center" "center"]
     else []) ++
    [AxVLine (VTime (i_start iv)) color "dashed";
     AxVLine (VTime (i_end iv)) color "dashed"]
  else [].

Definition markers_relative (ws we apo : Z) (label : bool) (height : Qc)
    (color : string) (iv : interval) : list artist :=
  if decide (selected ws we iv) then
    (if label then
       [Text (VFloat (window_fraction ws we (midpoint iv))) height
          (normalise (i_type iv)) transAxes color "center" "center"]
     else []) ++
    [AxVLine (VFloat (total_minutes (apo - i_start iv))) color "dashed";
     AxVLine (VFloat (total_minutes (apo - i_end iv))) color "dashed"]
  else [].

(** [adds_only m]: whatever [m] returns or raises, the heap it leaves is
    the heap it found with some artists added to the axes. *)
Definition adds_only {A} (m : M A) : Prop :=
  ∀ h, ∃ l, snd (m h) = draw h l.

(** [quiet m]: [m] leaves the heap as it is and does not divide by zero. *)
Definition quiet (m : M unit) : Prop :=
  ∀ h, snd (m h) = h ∧ fst (m h) ≠ Raise ZeroDivisionError.

(** [raises r]: the call ended with an exception. *)
Definition raises {A} (r : result A * Heap) : Prop :=
  ∃ e h, r = (Raise e, h).

(** The columns [Load_Crossings] reads, and the columns of its result. *)
Definition source_fields : list string :=
  ["start"; "end"; "start_x_msm"; "start_y_msm"; "start_z_msm"; "Type"].

Definition table_fields : gset string :=
  {["start"; "end"; "start_x_msm"; "start_y_msm"; "start_z_msm"; "type"]}.

(** The field [k] of an unpickled record, if it has one. *)
Definition field (o : pyobj) (k : string) : option Series :=
  match o with
  | PyDataFrame df => columns df !! k
  | PyDict d => d !! k
  | PyOther => None
  end.


(* ===================================================================== *)
(** ** A small data set                                                   *)
(* ===================================================================== *)

Module Example.
Import datetime.

(** The reference apoapsis, and four crossings around it: ten minutes
    before it, five minutes after it, one that spans the whole window and
    one that touches both of its bounds. *)
Definition apoapsis : Z := minutes 100.
Definition window_start : Z := minutes 80.
Definition window_end : Z := minutes 120.

Definition c_start : list value :=
  [VTime (apoapsis - minutes 10); VTime (apoapsis + minutes 5);
   VTime (minutes 70); VTime window_start].
Definition c_end : list value :=
  [VTime (apoapsis - minutes 10 + seconds 10); VTime (apoapsis + minutes 7);
   VTime (minutes 130); VTime window_end].
Definition c_x : list value :=
  [VFloat (Qc_of_Z 1); VFloat (Qc_of_Z 2); VFloat (Qc_of_Z 3); VFloat (Qc_of_Z 4)].
Definition c_type : list value :=
  [VStr "magnetopause_crossing"; VStr "bow_shock";
   VStr "magnetopause_crossing"; VStr "bow_shock"].

(** The pickled frame, with the end-point coordinates the loader drops. *)
Definition source : DataFrame :=
  {| index_len := 4;
     columns := list_to_map
       [("start", c_start); ("end", c_end);
        ("start_x_msm", c_x); ("end_x_msm", c_x);
        ("start_y_msm", c_x); ("end_y_msm", c_x);
        ("start_z_msm", c_x); ("end_z_msm", c_x);
        ("Type", c_type)] |}.

(** The same frame without its [Type] column. *)
Definition source_untyped : DataFrame :=
  {| index_len := 4; columns := delete "Type" (columns source) |}.

(** A directory of the file system with a table, a table without types,
    a pickled list, a file that is no pickle, an empty file and a
    sub-directory. *)
Definition fs : gmap string node :=
  {[ "crossings.pkl" := File [Byte.x01];
     "no_type.pkl" := File [Byte.x02];
     "list.pkl" := File [Byte.x03];
     "garbage.pkl" := File [Byte.xff];
     "empty.pkl" := File [];
     "a_directory" := Directory ]}.

(** A decoder for these files: it raises EOFError on the empty file and
    UnpicklingError on the file that is no pickle, as [pickle.load] does. *)
Definition pickle_load (content : list Byte.byte) : result pyobj :=
  match content with
  | [Byte.x01] => Ok (PyDataFrame source)
  | [Byte.x02] => Ok (PyDataFrame source_untyped)
  | [Byte.x03] => Ok PyOther
  | [] => Raise EOFError
  | _ => Raise UnpicklingError
  end.

(** The loaded table, and the objects of a caller about to plot it on
    empty axes. *)
Definition crossings : DataFrame :=
  DataFrame_of_dict
    [("start", c_start); ("end", c_end); ("start_x_msm", c_x);
     ("start_y_msm", c_x); ("start_z_msm", c_x); ("type", c_type)].

Definition heap : Heap := {| crossings_obj := crossings; ax_obj := [] |}.

Definition first_crossing : interval :=
  mkInterval (apoapsis - minutes 10) (apoapsis - minutes 10 + seconds 10)
    "magnetopause_crossing".

Definition intervals : list interval :=
  [ first_crossing;
    mkInterval (apoapsis + minutes 5) (apoapsis + minutes 7) "bow_shock";
    mkInterval (minutes 70) (minutes 130) "magnetopause_crossing";
    mkInterval window_start window_end "bow_shock" ].


End Example.

(* ===================================================================== *)
(** ** Further notions for the behaviour on arbitrary tables              *)
(* ===================================================================== *)

(** Cells that are timestamps, and cells that are strings. *)
Definition is_time (v : value) : Prop := ∃ t, v = VTime t.
Definition is_str (v : value) : Prop := ∃ s, v = VStr s.

(** The two dashed lines of an interval in each function. *)
Definition lines_absolute (color : string) (s e : Z) : list artist :=
  [AxVLine (VTime s) color "dashed"; AxVLine (VTime e) color "dashed"].

Definition lines_relative (apo : Z) (color : string) (s e : Z) : list artist :=
  [AxVLine (VFloat (total_minutes (apo - s))) color "dashed";
   AxVLine (VFloat (total_minutes (apo - e))) color "dashed"].

(** What [Plot_Crossings_As_Minutes_Before] draws where
    [Plot_Crossing_Intervals] draws [a]: a label at the given height, a
    line at its minutes before the apoapsis. *)
Definition relative_artist (apo : Z) (height : Qc) (a : artist) : artist :=
  match a with
  | Text x _ s tr color ha va => Text x height s tr color ha va
  | AxVLine (VTime t) color ls =>
      AxVLine (VFloat (total_minutes (apo - t))) color ls
  | AxVLine v color ls => AxVLine v color ls
  end.

(** What each loop adds to the axes for a row whose start time is missing
    (NaT) and whose end time is [e]: the row is judged by its end, and its
    label and its first line are placed at NaN, resp. at NaT. *)
Definition markers_absolute_no_start (ws we : Z) (label : bool)
    (color : string) (e : Z) (ty : string) : list artist :=
  if bool_decide (strictly_inside ws we e) then
    (if label then
       [Text VNaN (Q2Qc (9 # 10)) (normalise ty) transAxes color
          "center" "center"]
     else []) ++
    [AxVLine VNaT color "dashed"; AxVLine (VTime e) color "dashed"]
  else [].

Definition markers_relative_no_start (ws we apo : Z) (label : bool)
    (height : Qc) (color : string) (e : Z) (ty : string) : list artist :=
  if bool_decide (strictly_inside ws we e) then
    (if label then
       [Text VNaN height (normalise ty) transAxes color "center" "center"]
     else []) ++
    [AxVLine VNaN color "dashed";
     AxVLine (VFloat (total_minutes (apo - e))) color "dashed"]
  else [].

(** An ASCII character, and an ASCII lower-case letter. *)
Definition is_ascii (c : ascii) : Prop := (nat_of_ascii c < 128)%nat.

Definition is_lower (c : ascii) : Prop :=
  (97 ≤ nat_of_ascii c ∧ nat_of_ascii c ≤ 122)%nat.

Module Example2.
Import datetime.

(** A table with the two timestamp columns only. *)
Definition timestamps_only : DataFrame :=
  {| index_len := 4;
     columns := list_to_map
       [("start", Example.c_start); ("end", Example.c_end)] |}.

(** A table whose second row has a note where its start time should be. *)
Definition faulty : DataFrame :=
  {| index_len := 3;
     columns := list_to_map
       [("start", [VTime (minutes 90); VStr "unknown"; VTime (minutes 105)]);
        ("end", [VTime (minutes 92); VTime (minutes 95); VTime (minutes 107)]);
        ("type", [VStr "bow_shock"; VStr "bow_shock"; VStr "bow_shock"])] |}.

(** A table with rows but no start column, and one with no end column. *)
Definition no_start : DataFrame :=
  {| index_len := 4;
     columns := list_to_map [("end", Example.c_end); ("type", Example.c_type)] |}.

Definition no_end : DataFrame :=
  {| index_len := 4;
     columns := list_to_map
       [("start", Example.c_start); ("type", Example.c_type)] |}.

(** A table whose second row has no start time. *)
Definition gappy : DataFrame :=
  {| index_len := 3;
     columns := list_to_map
       [("start", [VTime (minutes 90); VNaT; VTime (minutes 105)]);
        ("end", [VTime (minutes 92); VTime (minutes 95); VTime (minutes 107)]);
        ("type", [VStr "bow_shock"; VStr "bow_shock"; VStr "bow_shock"])] |}.

(** The start and end times of the example intervals. *)
Definition spans : list (Z * Z) :=
  (λ iv, (i_start iv, i_end iv)) <$> Example.intervals.

Definition heap_of (df : DataFrame) : Heap :=
  {| crossings_obj := df; ax_obj := [] |}.

End Example2.

(* ===================================================================== *)
(** ** Arithmetic of seconds and minutes                                  *)
(* ===================================================================== *)

Section Arith.
Local Open Scope Qc_scope.

Lemma Qc_of_Z_nonzero (n : Z) : n ≠ 0%Z → Qc_of_Z n ≠ 0.
Proof. intros Hn H. apply Hn, Z2Qc_inj. by rewrite Z2Qc_inj_0. Qed.

Lemma Qcdiv_nonzero (a b : Qc) : a ≠ 0 → b ≠ 0 → a / b ≠ 0.
Proof.
  intros Ha Hb H. apply Ha.
  rewrite <- (Qcmult_div_r a b) by done. rewrite H. ring.
Qed.

Lemma total_seconds_nonzero (td : Z) :
  td ≠ 0%Z → datetime.total_seconds td ≠ 0.
Proof.
  intros Htd. unfold datetime.total_seconds.
  apply Qcdiv_nonzero; by apply Qc_of_Z_nonzero.
Qed.

Lemma total_seconds_0 : datetime.total_seconds 0 = 0.
Proof. by apply Qc_is_canon. Qed.

Lemma float_truediv_nonzero (a b : Qc) : b ≠ 0 → float_truediv a b = Ok (a / b).
Proof. intros Hb. unfold float_truediv. by destruct (decide (b = 0)). Qed.

Lemma float_truediv_zero (a : Qc) : float_truediv a 0 = Raise ZeroDivisionError.
Proof. unfold float_truediv. by destruct (decide (0 = 0)). Qed.

Lemma nan_truediv_nonzero (b : Qc) : b ≠ 0 → nan_truediv b = Ok VNaN.
Proof. intros Hb. unfold nan_truediv. by destruct (decide (b = 0)). Qed.

(** Seconds over sixty are minutes. *)
Lemma total_seconds_div_60 (td : Z) :
  datetime.total_seconds td / Qc_of_Z 60 = total_minutes td.
Proof.
  unfold datetime.total_seconds, total_minutes.
  replace 60000000000%Z with (1000000000 * 60)%Z by done.
  rewrite Z2Qc_inj_mul.
  assert (Qc_of_Z 1000000000 ≠ 0) by by apply Qc_of_Z_nonzero.
  assert (Qc_of_Z 60 ≠ 0) by by apply Qc_of_Z_nonzero.
  by field.
Qed.

Lemma total_minutes_minutes (m : Z) :
  total_minutes (datetime.minutes m) = Qc_of_Z m.
Proof.
  unfold total_minutes, datetime.minutes. rewrite Z2Qc_inj_mul.
  assert (Qc_of_Z 60000000000 ≠ 0) by by apply Qc_of_Z_nonzero.
  by field.
Qed.

Lemma Qc_of_Z_pos (n : Z) : (0 < n)%Z ↔ 0 < Qc_of_Z n.
Proof. by rewrite Z2Qc_inj_lt, Z2Qc_inj_0. Qed.





(** Minutes are monotone in the timedelta. *)
Lemma total_minutes_lt (a b : Z) :
  (a < b)%Z ↔ total_minutes a < total_minutes b.
Proof.
  unfold total_minutes, Qcdiv.
  assert (0 < / Qc_of_Z 60000000000) as Hinv.
  { apply Qcinv_pos, (proj1 (Qc_of_Z_pos _)). lia. }
  rewrite <- (Qcmult_lt_mono_pos_r _ _ _ Hinv). apply Z2Qc_inj_lt.
Qed.

Lemma total_minutes_le (a b : Z) :
  (a ≤ b)%Z ↔ total_minutes a ≤ total_minutes b.
Proof.
  unfold total_minutes, Qcdiv.
  assert (0 < / Qc_of_Z 60000000000) as Hinv.
  { apply Qcinv_pos, (proj1 (Qc_of_Z_pos _)). lia. }
  rewrite <- (Qcmult_le_mono_pos_r _ _ _ Hinv). apply Z2Qc_inj_le.
Qed.

Lemma total_minutes_0 : total_minutes 0 = 0.
Proof. by apply Qc_is_canon. Qed.

End Arith.

(* ===================================================================== *)
(** ** Halving a Timedelta                                                *)
(* ===================================================================== *)

Section Halving.
Local Open Scope Z_scope.











End Halving.

(* ===================================================================== *)
(** ** Label text                                                         *)
(* ===================================================================== *)

Section LabelText.

Lemma upper_ascii_underscore (c : ascii) :
  str.upper_ascii c = "_"%char ↔ c = "_"%char.
Proof.
  destruct c as [[] [] [] [] [] [] [] []]; vm_compute; split; congruence.
Qed.

Lemma startswith_empty (s : string) : str.startswith s "" = true.
Proof. by destruct s. Qed.

Lemma replace_underscore_cons (c : ascii) (s : string) :
  str.replace (String c s) "_" " " =
  String (if decide (c = "_"%char) then " "%char else c)
         (str.replace s "_" " ").
Proof.
  unfold str.replace. simpl. rewrite startswith_empty.
  destruct (decide (c = "_"%char)) as [->|Hc].
  - by rewrite bool_decide_eq_true_2.
  - by rewrite bool_decide_eq_false_2 by congruence.
Qed.

(** The code's [upper] followed by [replace] is the normalisation of
    the specification. *)
Lemma upper_replace_normalise (s : string) :
  str.replace (str.upper s) "_" " " = normalise s.
Proof.
  induction s as [|c s IH]; [done|].
  simpl. rewrite replace_underscore_cons, IH. f_equal.
  unfold normalise_char.
  destruct (decide (c = "_"%char)) as [->|Hc]; [done|].
  destruct (decide (str.upper_ascii c = "_"%char)) as [Hu|]; [|done].
  destruct Hc. by apply (proj1 (upper_ascii_underscore c)).
Qed.

Lemma normalise_length (s : string) :
  String.length (normalise s) = String.length s.
Proof. induction s; simpl; congruence. Qed.

End LabelText.

(* ===================================================================== *)
(** ** One turn of each loop                                              *)
(* ===================================================================== *)

Section Body.

Lemma as_interval_Some (r : gmap string value) (iv : interval) :
  as_interval r = Some iv →
  r !! "start" = Some (VTime (i_start iv)) ∧
  r !! "end" = Some (VTime (i_end iv)) ∧
  r !! "type" = Some (VStr (i_type iv)).
Proof.
  unfold as_interval. intros H.
  destruct (r !! "start") as [[]|]; try done.
  destruct (r !! "end") as [[]|]; try done.
  destruct (r !! "type") as [[]|]; try done.
  by inversion H.
Qed.

(** The test on a row with two timestamps. *)
Lemma crossing_in_plot_span (r : gmap string value) (s e ws we : Z) :
  r !! "start" = Some (VTime s) → r !! "end" = Some (VTime e) →
  crossing_in_plot r ws we
  = Ok (bool_decide (strictly_inside ws we s ∨ strictly_inside ws we e)).
Proof.
  intros Hs He. unfold crossing_in_plot, row_getitem, strictly_inside.
  rewrite Hs, He. simpl.
  repeat case_bool_decide; simpl; try done; exfalso; tauto.
Qed.

(** On a typed row the test of the loops is the selection rule. *)
Lemma crossing_in_plot_interval (r : gmap string value) (iv : interval)
    (ws we : Z) :
  as_interval r = Some iv →
  crossing_in_plot r ws we = Ok (bool_decide (selected ws we iv)).
Proof.
  intros (Hs & He & _)%as_interval_Some.
  by rewrite (crossing_in_plot_span _ _ _ _ _ Hs He).
Qed.

(** The midpoint on a row with two timestamps. *)
Lemma midpoint_of_span (r : gmap string value) (s e : Z) :
  r !! "start" = Some (VTime s) → r !! "end" = Some (VTime e) →
  midpoint_of r = Ok (VTime (s + datetime.Timedelta_truediv_2 (e - s))).
Proof.
  intros Hs He. unfold midpoint_of, row_getitem. by rewrite Hs, He.
Qed.

Lemma midpoint_of_interval (r : gmap string value) (iv : interval) :
  as_interval r = Some iv → midpoint_of r = Ok (VTime (midpoint iv)).
Proof.
  intros (Hs & He & _)%as_interval_Some. by apply midpoint_of_span.
Qed.

Lemma selected_window_nonempty (ws we : Z) (iv : interval) :
  selected ws we iv → (ws < we)%Z.
Proof. unfold selected, strictly_inside. lia. Qed.

Lemma label_position_window (ws we t : Z) :
  (ws < we)%Z → label_position t ws we = Ok (window_fraction ws we t).
Proof.
  intros Hw. unfold label_position.
  rewrite float_truediv_nonzero; [done|].
  apply total_seconds_nonzero. lia.
Qed.

Lemma label_position_of_window (ws we t : Z) :
  (ws < we)%Z →
  label_position_of (VTime t) ws we = Ok (VFloat (window_fraction ws we t)).
Proof.
  intros Hw. unfold label_position_of.
  by rewrite (label_position_window _ _ _ Hw).
Qed.

Lemma minutes_before_time (apo t : Z) :
  minutes_before apo (VTime t) = Ok (VFloat (total_minutes (apo - t))).
Proof.
  unfold minutes_before, datetime_sub_value. cbn [mbind result_bind].
  rewrite float_truediv_nonzero by by apply Qc_of_Z_nonzero.
  cbn [mbind result_bind]. by rewrite total_seconds_div_60.
Qed.

Lemma draw_nil (h : Heap) : draw h [] = h.
Proof. destruct h. unfold draw. simpl. by rewrite app_nil_r. Qed.

Lemma draw_draw (h : Heap) (l1 l2 : list artist) :
  draw (draw h l1) l2 = draw h (l1 ++ l2).
Proof. unfold draw. simpl. by rewrite app_assoc. Qed.

(** One turn of the first loop on a row with two timestamps: the type is
    read only for a selected row with labels on, and an exception at that
    point leaves the heap as it is. *)
Lemma Plot_Crossing_Intervals_body_span (ws we : Z) (label : bool)
    (color : string) (r : gmap string value) (s e : Z) (h : Heap) :
  r !! "start" = Some (VTime s) → r !! "end" = Some (VTime e) →
  Plot_Crossing_Intervals_body ws we label color r h =
  if bool_decide (strictly_inside ws we s ∨ strictly_inside ws we e) then
    if label then
      match row_getitem r "type" ≫= value_upper_replace with
      | Ok text =>
          (Ok (), draw h
             (Text (VFloat (window_fraction ws we
                              (s + datetime.Timedelta_truediv_2 (e - s))))
                (Q2Qc (9 # 10)) text transAxes color "center" "center"
              :: lines_absolute color s e))
      | Raise ex => (Raise ex, h)
      end
    else (Ok (), draw h (lines_absolute color s e))
  else (Ok (), h).
Proof.
  intros Hs He. unfold Plot_Crossing_Intervals_body.
  unfold mbind at 1, M_bind at 1, lift at 1.
  rewrite (crossing_in_plot_span _ _ _ _ _ Hs He).
  case_bool_decide as Hsel; [|done].
  assert (ws < we)%Z as Hw by (unfold strictly_inside in Hsel; lia).
  unfold mbind at 1, M_bind at 1, lift at 1.
  rewrite (midpoint_of_span _ _ _ Hs He).
  unfold lift, mret, M_ret, ax_text, ax_axvline, row_getitem,
    mbind, M_bind, result_bind.
  rewrite Hs, He. cbv beta iota.
  destruct label.
  - rewrite (label_position_of_window _ _ _ Hw). cbv beta iota.
    destruct (r !! "type") as [[]|]; try done.
    unfold value_upper_replace, draw, lines_absolute. cbn [ax_obj crossings_obj].
    by rewrite <- !app_assoc.
  - unfold draw, lines_absolute. cbn [ax_obj crossings_obj].
    by rewrite <- !app_assoc.
Qed.

Lemma Plot_Crossings_As_Minutes_Before_body_span (ws we apo : Z)
    (label : bool) (height : Qc) (color : string)
    (r : gmap string value) (s e : Z) (h : Heap) :
  r !! "start" = Some (VTime s) → r !! "end" = Some (VTime e) →
  Plot_Crossings_As_Minutes_Before_body ws we apo label height color r h =
  if bool_decide (strictly_inside ws we s ∨ strictly_inside ws we e) then
    if label then
      match row_getitem r "type" ≫= value_upper_replace with
      | Ok text =>
          (Ok (), draw h
             (Text (VFloat (window_fraction ws we
                              (s + datetime.Timedelta_truediv_2 (e - s))))
                height text transAxes color "center" "center"
              :: lines_relative apo color s e))
      | Raise ex => (Raise ex, h)
      end
    else (Ok (), draw h (lines_relative apo color s e))
  else (Ok (), h).
Proof.
  intros Hs He. unfold Plot_Crossings_As_Minutes_Before_body.
  unfold mbind at 1, M_bind at 1, lift at 1.
  rewrite (crossing_in_plot_span _ _ _ _ _ Hs He).
  case_bool_decide as Hsel; [|done].
  assert (ws < we)%Z as Hw by (unfold strictly_inside in Hsel; lia).
  unfold mbind at 1, M_bind at 1, lift at 1.
  rewrite (midpoint_of_span _ _ _ Hs He).
  pose proof (minutes_before_time apo s) as Hms.
  pose proof (minutes_before_time apo e) as Hme.
  unfold lift, mret, M_ret, ax_text, ax_axvline, row_getitem,
    mbind, M_bind, result_bind.
  rewrite Hs, He. cbv beta iota. rewrite Hms, Hme. cbv beta iota.
  destruct label.
  - rewrite (label_position_of_window _ _ _ Hw). cbv beta iota.
    destruct (r !! "type") as [[]|]; try done.
    unfold value_upper_replace, draw, lines_relative. cbn [ax_obj crossings_obj].
    by rewrite <- !app_assoc.
  - unfold draw, lines_relative. cbn [ax_obj crossings_obj].
    by rewrite <- !app_assoc.
Qed.

(** One turn of each loop on a typed row. *)
Lemma Plot_Crossing_Intervals_body_interval (ws we : Z) (label : bool)
    (color : string) (r : gmap string value) (iv : interval) (h : Heap) :
  as_interval r = Some iv →
  Plot_Crossing_Intervals_body ws we label color r h =
  (Ok (), draw h (markers_absolute ws we label color iv)).
Proof.
  intros (Hs & He & Hty)%as_interval_Some.
  rewrite (Plot_Crossing_Intervals_body_span _ _ _ _ _ _ _ _ Hs He).
  unfold markers_absolute. fold (selected ws we iv).
  destruct (decide (selected ws we iv)) as [Hsel|Hsel].
  - rewrite bool_decide_eq_true_2 by done.
    unfold row_getitem. rewrite Hty. simpl.
    rewrite upper_replace_normalise. by destruct label.
  - rewrite bool_decide_eq_false_2 by done. by rewrite draw_nil.
Qed.

Lemma Plot_Crossings_As_Minutes_Before_body_interval (ws we apo : Z)
    (label : bool) (height : Qc) (color : string)
    (r : gmap string value) (iv : interval) (h : Heap) :
  as_interval r = Some iv →
  Plot_Crossings_As_Minutes_Before_body ws we apo label height color r h =
  (Ok (), draw h (markers_relative ws we apo label height color iv)).
Proof.
  intros (Hs & He & Hty)%as_interval_Some.
  rewrite (Plot_Crossings_As_Minutes_Before_body_span
             _ _ _ _ _ _ _ _ _ _ Hs He).
  unfold markers_relative. fold (selected ws we iv).
  destruct (decide (selected ws we iv)) as [Hsel|Hsel].
  - rewrite bool_decide_eq_true_2 by done.
    unfold row_getitem. rewrite Hty. simpl.
    rewrite upper_replace_normalise. by destruct label.
  - rewrite bool_decide_eq_false_2 by done. by rewrite draw_nil.
Qed.

End Body.

(* ===================================================================== *)
(** ** The loops over a typed table                                       *)
(* ===================================================================== *)

Section Loops.

Lemma for_intervals (body : gmap string value → M unit)
    (markers : interval → list artist) :
  (∀ r iv h, as_interval r = Some iv → body r h = (Ok (), draw h (markers iv))) →
  ∀ rows ivs h,
    Forall2 (λ r iv, as_interval r = Some iv) rows ivs →
    for_ rows body h = (Ok (), draw h (concat (markers <$> ivs))).
Proof.
  intros Hbody rows ivs h Hrows. revert h.
  induction Hrows as [|r iv rows ivs Hr _ IH]; intros h.
  - simpl. by rewrite draw_nil.
  - simpl. unfold mbind, M_bind. rewrite (Hbody _ _ _ Hr).
    rewrite IH. by rewrite draw_draw.
Qed.

(** Both functions are their loop over the rows of the table. *)
Lemma Plot_Crossing_Intervals_loop (ws we : Z) (label : bool)
    (color : string) (h : Heap) :
  Plot_Crossing_Intervals ws we label color h
  = for_ (iterrows (crossings_obj h))
      (Plot_Crossing_Intervals_body ws we label color) h.
Proof. reflexivity. Qed.

Lemma Plot_Crossings_As_Minutes_Before_loop (ws we apo : Z) (label : bool)
    (height : Qc) (color : string) (h : Heap) :
  Plot_Crossings_As_Minutes_Before ws we apo label height color h
  = for_ (iterrows (crossings_obj h))
      (Plot_Crossings_As_Minutes_Before_body ws we apo label height color) h.
Proof. reflexivity. Qed.

(** What each function does on a table of crossing intervals. *)
Lemma Plot_Crossing_Intervals_intervals (ws we : Z) (label : bool)
    (color : string) (h : Heap) (ivs : list interval) :
  table_intervals (crossings_obj h) = Some ivs →
  Plot_Crossing_Intervals ws we label color h =
  (Ok (), draw h (concat (markers_absolute ws we label color <$> ivs))).
Proof.
  intros Hivs%mapM_Some. rewrite Plot_Crossing_Intervals_loop.
  apply for_intervals; [|done].
  intros. by apply Plot_Crossing_Intervals_body_interval.
Qed.

Lemma Plot_Crossings_As_Minutes_Before_intervals (ws we apo : Z)
    (label : bool) (height : Qc) (color : string) (h : Heap)
    (ivs : list interval) :
  table_intervals (crossings_obj h) = Some ivs →
  Plot_Crossings_As_Minutes_Before ws we apo label height color h =
  (Ok (), draw h (concat (markers_relative ws we apo label height color <$> ivs))).
Proof.
  intros Hivs%mapM_Some. rewrite Plot_Crossings_As_Minutes_Before_loop.
  apply for_intervals; [|done].
  intros. by apply Plot_Crossings_As_Minutes_Before_body_interval.
Qed.

Lemma markers_absolute_nil (ws we : Z) (label : bool) (color : string)
    (iv : interval) :
  markers_absolute ws we label color iv = [] ↔ ¬ selected ws we iv.
Proof.
  unfold markers_absolute. destruct (decide (selected ws we iv)); [|done].
  split; [|done]. by destruct label.
Qed.

Lemma markers_relative_nil (ws we apo : Z) (label : bool) (height : Qc)
    (color : string) (iv : interval) :
  markers_relative ws we apo label height color iv = [] ↔ ¬ selected ws we iv.
Proof.
  unfold markers_relative. destruct (decide (selected ws we iv)); [|done].
  split; [|done]. by destruct label.
Qed.

Lemma Forall2_fmap_r_intro {A B} (P : A → B → Prop) (f : A → B) (l : list A) :
  (∀ x, P x (f x)) → Forall2 P l (f <$> l).
Proof. intros HP. induction l; simpl; constructor; auto. Qed.

Lemma concat_all_nil {A} (ll : list (list A)) :
  Forall (λ l, l = []) ll → concat ll = [].
Proof. induction 1 as [|l ll -> _ IH]; simpl; auto. Qed.

(** An interval that adds nothing can be left out of the table. *)
Lemma concat_fmap_skip {A B} (f : A → list B) (before after : list A) (x : A) :
  f x = [] →
  concat (f <$> (before ++ x :: after)) = concat (f <$> (before ++ after)).
Proof.
  intros Hx. rewrite !fmap_app, fmap_cons, !concat_app. simpl.
  by rewrite Hx.
Qed.

End Loops.

(* ===================================================================== *)
(** ** Frame: computations that only add to the axes                      *)
(* ===================================================================== *)

Section Frame.

Lemma adds_only_ret {A} (a : A) : adds_only (mret a).
Proof. intros h. exists []. by rewrite draw_nil. Qed.

Lemma adds_only_lift {A} (r : result A) : adds_only (lift r).
Proof. intros h. exists []. by rewrite draw_nil. Qed.

Lemma adds_only_bind {A B} (m : M A) (f : A → M B) :
  adds_only m → (∀ a, adds_only (f a)) → adds_only (m ≫= f).
Proof.
  intros Hm Hf h. unfold mbind, M_bind.
  destruct (Hm h) as [l1 Hl1]. destruct (m h) as [[a|e] h1]; simpl in *.
  - destruct (Hf a h1) as [l2 Hl2]. exists (l1 ++ l2).
    by rewrite Hl2, Hl1, draw_draw.
  - by exists l1.
Qed.

Lemma adds_only_ax_text x y s tr color ha va :
  adds_only (ax_text x y s tr color ha va).
Proof. intros h. by eexists. Qed.

Lemma adds_only_ax_axvline x color ls : adds_only (ax_axvline x color ls).
Proof. intros h. by eexists. Qed.

Lemma adds_only_crossings_iterrows : adds_only crossings_iterrows.
Proof. intros h. exists []. by rewrite draw_nil. Qed.

Lemma adds_only_for {A} (xs : list A) (body : A → M unit) :
  (∀ x, adds_only (body x)) → adds_only (for_ xs body).
Proof.
  intros Hbody. induction xs as [|x xs IH]; simpl.
  - apply adds_only_ret.
  - apply adds_only_bind; auto.
Qed.

Local Ltac adds_only_step :=
  first
    [ apply adds_only_bind; [|intros ?]
    | apply adds_only_lift
    | apply adds_only_ret
    | apply adds_only_ax_text
    | apply adds_only_ax_axvline
    | apply adds_only_crossings_iterrows
    | match goal with |- adds_only (if ?b then _ else _) => destruct b end ].

Lemma adds_only_Plot_Crossing_Intervals ws we label color :
  adds_only (Plot_Crossing_Intervals ws we label color).
Proof.
  unfold Plot_Crossing_Intervals.
  apply adds_only_bind; [apply adds_only_crossings_iterrows|intros rows].
  apply adds_only_for. intros r. unfold Plot_Crossing_Intervals_body.
  repeat adds_only_step.
Qed.

Lemma adds_only_Plot_Crossings_As_Minutes_Before ws we apo label height color :
  adds_only (Plot_Crossings_As_Minutes_Before ws we apo label height color).
Proof.
  unfold Plot_Crossings_As_Minutes_Before.
  apply adds_only_bind; [apply adds_only_crossings_iterrows|intros rows].
  apply adds_only_for. intros r.
  unfold Plot_Crossings_As_Minutes_Before_body.
  repeat adds_only_step.
Qed.

End Frame.

(* ===================================================================== *)
(** ** The empty window                                                   *)
(* ===================================================================== *)

Section EmptyWindow.

(** The test is true only on a window with a start before its end. *)
Lemma crossing_in_plot_true (r : gmap string value) (ws we : Z) :
  crossing_in_plot r ws we = Ok true → (ws < we)%Z.
Proof.
  unfold crossing_in_plot, row_getitem.
  destruct (r !! "start") as [[s| | | |]|]; simpl; try done;
    destruct (r !! "end") as [[e| | | |]|]; simpl;
    repeat case_bool_decide; simpl; try done; lia.
Qed.

(** With [start = end] the test is false, or raises on an ill-typed row;
    it is never true. *)
Lemma crossing_in_plot_empty_window (r : gmap string value) (w : Z) :
  crossing_in_plot r w w = Ok false ∨
  ∃ e, crossing_in_plot r w w = Raise e ∧ e ≠ ZeroDivisionError.
Proof.
  unfold crossing_in_plot, row_getitem.
  destruct (r !! "start") as [[s| | | |]|]; simpl; eauto;
    destruct (r !! "end") as [[e| | | |]|]; simpl;
    repeat case_bool_decide; simpl; eauto; lia.
Qed.

Lemma quiet_for {A} (xs : list A) (body : A → M unit) :
  (∀ x, quiet (body x)) → quiet (for_ xs body).
Proof.
  intros Hbody. induction xs as [|x xs IH]; intros h; simpl.
  - done.
  - unfold mbind, M_bind. destruct (Hbody x h) as [Hh He].
    destruct (body x h) as [[[]|e] h1]; simpl in *; subst h1.
    + apply IH.
    + done.
Qed.

Lemma quiet_of_test (r : gmap string value) (w : Z) (k : M unit) :
  quiet (in_plot ← lift (crossing_in_plot r w w);
         if in_plot : bool then k else mret ()).
Proof.
  intros h. unfold mbind, M_bind, lift.
  destruct (crossing_in_plot_empty_window r w) as [->|(e & -> & He)]; simpl.
  - done.
  - split; [done|congruence].
Qed.

Lemma quiet_Plot_Crossing_Intervals (w : Z) label color :
  quiet (Plot_Crossing_Intervals w w label color).
Proof.
  intros h. unfold Plot_Crossing_Intervals.
  unfold mbind at 1, M_bind at 1, crossings_iterrows.
  apply quiet_for. intros r. apply quiet_of_test.
Qed.

Lemma quiet_Plot_Crossings_As_Minutes_Before (w apo : Z) label height color :
  quiet (Plot_Crossings_As_Minutes_Before w w apo label height color).
Proof.
  intros h. unfold Plot_Crossings_As_Minutes_Before.
  unfold mbind at 1, M_bind at 1, crossings_iterrows.
  apply quiet_for. intros r. apply quiet_of_test.
Qed.

Lemma not_selected_empty_window (w : Z) (iv : interval) : ¬ selected w w iv.
Proof. unfold selected, strictly_inside. lia. Qed.

Lemma markers_absolute_empty_window (w : Z) label color (ivs : list interval) :
  concat (markers_absolute w w label color <$> ivs) = [].
Proof.
  apply concat_all_nil, Forall_fmap, Forall_forall. intros iv _.
  apply markers_absolute_nil, not_selected_empty_window.
Qed.

Lemma markers_relative_empty_window (w apo : Z) label height color
    (ivs : list interval) :
  concat (markers_relative w w apo label height color <$> ivs) = [].
Proof.
  apply concat_all_nil, Forall_fmap, Forall_forall. intros iv _.
  apply markers_relative_nil, not_selected_empty_window.
Qed.

(** The empty window on a typed table: both functions return normally and
    leave the heap as it is. *)
Lemma Plot_Crossing_Intervals_empty_window (h : Heap) (ivs : list interval)
    (w : Z) (label : bool) (color : string) :
  table_intervals (crossings_obj h) = Some ivs →
  Plot_Crossing_Intervals w w label color h = (Ok (), h).
Proof.
  intros Hivs. rewrite (Plot_Crossing_Intervals_intervals _ _ _ _ _ _ Hivs).
  by rewrite markers_absolute_empty_window, draw_nil.
Qed.

Lemma Plot_Crossings_As_Minutes_Before_empty_window (h : Heap)
    (ivs : list interval) (w apo : Z) (label : bool) (height : Qc)
    (color : string) :
  table_intervals (crossings_obj h) = Some ivs →
  Plot_Crossings_As_Minutes_Before w w apo label height color h = (Ok (), h).
Proof.
  intros Hivs.
  rewrite (Plot_Crossings_As_Minutes_Before_intervals _ _ _ _ _ _ _ _ Hivs).
  by rewrite markers_relative_empty_window, draw_nil.
Qed.

End EmptyWindow.

(* ===================================================================== *)
(** ** Loading                                                            *)
(* ===================================================================== *)

Section Loading.

Variable fs : gmap string node.
Variable pickle_load : list Byte.byte → result pyobj.

Lemma reindex_full (n : nat) (s : Series) : length s = n → reindex n s = s.
Proof.
  intros <-. unfold reindex. rewrite firstn_all, Nat.sub_diag. simpl.
  by rewrite app_nil_r.
Qed.

(** The frame built from six columns of one length. *)
Lemma DataFrame_of_dict_six (n : nat) (c1 c2 c3 c4 c5 c6 : Series) :
  length c1 = n → length c2 = n → length c3 = n →
  length c4 = n → length c5 = n → length c6 = n →
  DataFrame_of_dict
    [("start", c1); ("end", c2); ("start_x_msm", c3);
     ("start_y_msm", c4); ("start_z_msm", c5); ("type", c6)] =
  {| index_len := n;
     columns := list_to_map
       [("start", c1); ("end", c2); ("start_x_msm", c3);
        ("start_y_msm", c4); ("start_z_msm", c5); ("type", c6)] |}.
Proof.
  intros H1 H2 H3 H4 H5 H6. unfold DataFrame_of_dict. simpl.
  rewrite H1, H2, H3, H4, H5, H6.
  replace (n `max` (n `max` (n `max` (n `max` (n `max` (n `max` 0))))))
    with n by lia.
  by rewrite !reindex_full.
Qed.


(** Where [Load_Crossings] stops on a record: at its first missing
    field. *)
Lemma Load_Crossings_record (path : string) (content : list Byte.byte)
    (o : pyobj) :
  fs !! path = Some (File content) →
  pickle_load content = Ok o →
  Load_Crossings fs pickle_load path =
    (c_start ← obj_getitem o "start";
     c_end ← obj_getitem o "end";
     c_start_x ← obj_getitem o "start_x_msm";
     c_start_y ← obj_getitem o "start_y_msm";
     c_start_z ← obj_getitem o "start_z_msm";
     c_type ← obj_getitem o "Type";
     Ok (DataFrame_of_dict
           [("start", c_start); ("end", c_end); ("start_x_msm", c_start_x);
            ("start_y_msm", c_start_y); ("start_z_msm", c_start_z);
            ("type", c_type)])).
Proof.
  intros Hfs Hpk. unfold Load_Crossings, open.
  rewrite Hfs. simpl. by rewrite Hpk.
Qed.

Lemma Load_Crossings_frame (path : string) (content : list Byte.byte)
    (src : DataFrame) :
  fs !! path = Some (File content) →
  pickle_load content = Ok (PyDataFrame src) →
  Load_Crossings fs pickle_load path =
    (c_start ← getitem src "start";
     c_end ← getitem src "end";
     c_start_x ← getitem src "start_x_msm";
     c_start_y ← getitem src "start_y_msm";
     c_start_z ← getitem src "start_z_msm";
     c_type ← getitem src "Type";
     Ok (DataFrame_of_dict
           [("start", c_start); ("end", c_end); ("start_x_msm", c_start_x);
            ("start_y_msm", c_start_y); ("start_z_msm", c_start_z);
            ("type", c_type)])).
Proof. intros Hfs Hpk. by rewrite (Load_Crossings_record _ _ _ Hfs Hpk). Qed.

(** A frame built by [pd.DataFrame] is aligned. *)
Lemma DataFrame_of_dict_aligned (data : list (string * Series)) :
  aligned (DataFrame_of_dict data).
Proof.
  intros k col Hcol. unfold DataFrame_of_dict in *. simpl in *.
  apply elem_of_list_to_map_2, list_elem_of_fmap in Hcol
    as ([k' c] & [= _ ->] & _).
  unfold reindex. simpl. rewrite length_app, length_take, length_replicate. lia.
Qed.

Lemma table_fields_dom (c1 c2 c3 c4 c5 c6 : Series) :
  dom (list_to_map (M := gmap string (list value))
         [("start", c1); ("end", c2); ("start_x_msm", c3);
          ("start_y_msm", c4); ("start_z_msm", c5); ("type", c6)])
  = table_fields.
Proof.
  simpl. rewrite !dom_insert_L, dom_empty_L.
  unfold table_fields. set_solver.
Qed.


End Loading.

(* ===================================================================== *)
(** ** Properties of Load_Crossings                                       *)
(* ===================================================================== *)

(** C3.  For every well-formed source record (the file exists, unpickles to
    an aligned frame and has the six columns start, end, start_x_msm,
    start_y_msm, start_z_msm and Type), [Load_Crossings] returns a table
    with as many rows as the source, whose columns are exactly start, end,
    start_x_msm, start_y_msm, start_z_msm and type, each one the source
    column unchanged (type being the source's Type); the end_x_msm,
    end_y_msm and end_z_msm columns of the source are not in the result. *)
Theorem Load_Crossings_projection (fs : gmap string node)
    (pickle_load : list Byte.byte → result pyobj) (path : string)
    (content : list Byte.byte) (src : DataFrame) :
  fs !! path = Some (File content) →
  pickle_load content = Ok (PyDataFrame src) →
  aligned src →
  (∀ k, k ∈ source_fields → is_Some (columns src !! k)) →
  ∃ df,
    Load_Crossings fs pickle_load path = Ok df ∧
    index_len df = index_len src ∧
    length (iterrows df) = length (iterrows src) ∧
    dom (columns df) = table_fields ∧
    columns df !! "start" = columns src !! "start" ∧
    columns df !! "end" = columns src !! "end" ∧
    columns df !! "start_x_msm" = columns src !! "start_x_msm" ∧
    columns df !! "start_y_msm" = columns src !! "start_y_msm" ∧
    columns df !! "start_z_msm" = columns src !! "start_z_msm" ∧
    columns df !! "type" = columns src !! "Type" ∧
    columns df !! "end_x_msm" = None ∧
    columns df !! "end_y_msm" = None ∧
    columns df !! "end_z_msm" = None.
Proof.
  intros Hfs Hpk Hal Hcols.
  assert (∀ k, k ∈ source_fields →
            ∃ c, columns src !! k = Some c ∧ length c = index_len src) as Hcol.
  { intros k Hk. destruct (Hcols k Hk) as [c Hc]. exists c. eauto. }
  unfold source_fields in Hcol.
  destruct (Hcol "start") as (c1 & E1 & L1); [by repeat constructor|].
  destruct (Hcol "end") as (c2 & E2 & L2); [by repeat constructor|].
  destruct (Hcol "start_x_msm") as (c3 & E3 & L3); [by repeat constructor|].
  destruct (Hcol "start_y_msm") as (c4 & E4 & L4); [by repeat constructor|].
  destruct (Hcol "start_z_msm") as (c5 & E5 & L5); [by repeat constructor|].
  destruct (Hcol "Type") as (c6 & E6 & L6); [by repeat constructor|].
  rewrite (Load_Crossings_frame _ _ _ _ _ Hfs Hpk).
  unfold getitem. rewrite E1, E2, E3, E4, E5, E6. cbn [mbind result_bind].
  rewrite (DataFrame_of_dict_six (index_len src)) by done.
  eexists. split; [reflexivity|].
  split; [done|].
  split; [unfold iterrows; by rewrite !length_map|].
  split; [apply table_fields_dom|].
  cbn [columns]. by repeat split.
Qed.

Lemma Load_Crossings_projection_witness :
  ∃ df,
    Load_Crossings Example.fs Example.pickle_load "crossings.pkl" = Ok df ∧
    index_len df = index_len Example.source ∧
    length (iterrows df) = length (iterrows Example.source) ∧
    dom (columns df) = table_fields ∧
    columns df !! "start" = columns Example.source !! "start" ∧
    columns df !! "end" = columns Example.source !! "end" ∧
    columns df !! "start_x_msm" = columns Example.source !! "start_x_msm" ∧
    columns df !! "start_y_msm" = columns Example.source !! "start_y_msm" ∧
    columns df !! "start_z_msm" = columns Example.source !! "start_z_msm" ∧
    columns df !! "type" = columns Example.source !! "Type" ∧
    columns df !! "end_x_msm" = None ∧
    columns df !! "end_y_msm" = None ∧
    columns df !! "end_z_msm" = None.
Proof.
  apply (Load_Crossings_projection Example.fs Example.pickle_load
           "crossings.pkl" [Byte.x01] Example.source).
  - reflexivity.
  - reflexivity.
  - intros k col H. unfold Example.source in H. simpl in H.
    repeat (apply lookup_insert_Some in H as [[_ <-]|[_ H]]; [reflexivity|]).
    by rewrite lookup_empty in H.
  - intros k Hk. unfold source_fields in Hk.
    repeat (apply elem_of_cons in Hk as [->|Hk]; [by eexists|]).
    by apply elem_of_nil in Hk.
Defined.




(* ===================================================================== *)
(** ** Properties of the two plotting functions                           *)
(* ===================================================================== *)

(** C1.  On every table of crossing intervals and for every window, both
    plotting functions return normally and add to the axes exactly the
    markers of each interval, in table order, where an interval has
    markers if and only if its start or its end lies strictly inside the
    open window: such an interval gets its two dashed lines (at its start
    and end, resp. at their minutes before the apoapsis) after its label,
    if labels are on, and any other interval gets nothing.  In particular
    an interval that starts exactly on the window start and whose end is
    not strictly inside gets nothing. *)
Theorem selection_rule (h : Heap) (ivs : list interval) (ws we apo : Z)
    (label : bool) (height : Qc) (color : string) :
  table_intervals (crossings_obj h) = Some ivs →
  Plot_Crossing_Intervals ws we label color h
    = (Ok (), draw h (concat (markers_absolute ws we label color <$> ivs))) ∧
  Plot_Crossings_As_Minutes_Before ws we apo label height color h
    = (Ok (), draw h (concat (markers_relative ws we apo label height color
                                <$> ivs))) ∧
  ∀ iv,
    (strictly_inside ws we (i_start iv) ∨ strictly_inside ws we (i_end iv) →
     ∃ lbl_abs lbl_rel,
       markers_absolute ws we label color iv
         = lbl_abs ++ [AxVLine (VTime (i_start iv)) color "dashed";
                       AxVLine (VTime (i_end iv)) color "dashed"] ∧
       markers_relative ws we apo label height color iv
         = lbl_rel ++
           [AxVLine (VFloat (total_minutes (apo - i_start iv))) color "dashed";
            AxVLine (VFloat (total_minutes (apo - i_end iv))) color "dashed"] ∧
       length lbl_abs = (if label then 1 else 0)%nat ∧
       length lbl_rel = (if label then 1 else 0)%nat ∧
       ∀ a, a ∈ lbl_abs ++ lbl_rel →
            ∃ x y s, a = Text x y s transAxes color "center" "center") ∧
    (¬ (strictly_inside ws we (i_start iv) ∨
        strictly_inside ws we (i_end iv)) →
     markers_absolute ws we label color iv = [] ∧
     markers_relative ws we apo label height color iv = []) ∧
    (i_start iv = ws → ¬ strictly_inside ws we (i_end iv) →
     markers_absolute ws we label color iv = [] ∧
     markers_relative ws we apo label height color iv = []).
Proof.
  intros Hivs.
  split; [by apply Plot_Crossing_Intervals_intervals|].
  split; [by apply Plot_Crossings_As_Minutes_Before_intervals|].
  intros iv. fold (selected ws we iv). split; [|split].
  - intros Hsel. unfold markers_absolute, markers_relative.
    destruct (decide (selected ws we iv)); [|done].
    do 2 eexists. split; [reflexivity|]. split; [reflexivity|].
    destruct label; simpl; (split; [done|]); (split; [done|]).
    + intros a Ha.
      repeat (apply elem_of_cons in Ha as [->|Ha]; [by do 3 eexists|]).
      by apply elem_of_nil in Ha.
    + intros a Ha. by apply elem_of_nil in Ha.
  - intros Hsel. split.
    + by apply markers_absolute_nil.
    + by apply markers_relative_nil.
  - intros Hs He.
    assert (¬ selected ws we iv) as Hsel.
    { intros [Hin|Hin]; [|done]. unfold strictly_inside in Hin. lia. }
    split.
    + by apply markers_absolute_nil.
    + by apply markers_relative_nil.
Qed.

Lemma selection_rule_witness :
  table_intervals (crossings_obj Example.heap) = Some Example.intervals ∧
  Plot_Crossing_Intervals Example.window_start Example.window_end
      default_label default_color Example.heap
    = (Ok (), draw Example.heap
                (concat (markers_absolute Example.window_start
                           Example.window_end default_label default_color
                           <$> Example.intervals))) ∧
  Plot_Crossings_As_Minutes_Before Example.window_start Example.window_end
      Example.apoapsis default_label default_height default_color
      Example.heap
    = (Ok (), draw Example.heap
                (concat (markers_relative Example.window_start
                           Example.window_end Example.apoapsis default_label
                           default_height default_color
                           <$> Example.intervals))) ∧
  ∀ iv,
    (strictly_inside Example.window_start Example.window_end (i_start iv) ∨
     strictly_inside Example.window_start Example.window_end (i_end iv) →
     ∃ lbl_abs lbl_rel,
       markers_absolute Example.window_start Example.window_end
           default_label default_color iv
         = lbl_abs ++ [AxVLine (VTime (i_start iv)) default_color "dashed";
                       AxVLine (VTime (i_end iv)) default_color "dashed"] ∧
       markers_relative Example.window_start Example.window_end
           Example.apoapsis default_label default_height default_color iv
         = lbl_rel ++
           [AxVLine (VFloat (total_minutes (Example.apoapsis - i_start iv)))
              default_color "dashed";
            AxVLine (VFloat (total_minutes (Example.apoapsis - i_end iv)))
              default_color "dashed"] ∧
       length lbl_abs = (if default_label then 1 else 0)%nat ∧
       length lbl_rel = (if default_label then 1 else 0)%nat ∧
       ∀ a, a ∈ lbl_abs ++ lbl_rel →
            ∃ x y s, a = Text x y s transAxes default_color "center" "center") ∧
    (¬ (strictly_inside Example.window_start Example.window_end (i_start iv) ∨
        strictly_inside Example.window_start Example.window_end (i_end iv)) →
     markers_absolute Example.window_start Example.window_end
         default_label default_color iv = [] ∧
     markers_relative Example.window_start Example.window_end
         Example.apoapsis default_label default_height default_color iv = []) ∧
    (i_start iv = Example.window_start →
     ¬ strictly_inside Example.window_start Example.window_end (i_end iv) →
     markers_absolute Example.window_start Example.window_end
         default_label default_color iv = [] ∧
     markers_relative Example.window_start Example.window_end
         Example.apoapsis default_label default_height default_color iv = []).
Proof.
  split; [vm_compute; reflexivity|].
  apply (selection_rule Example.heap Example.intervals).
  vm_compute; reflexivity.
Defined.

(** C4.  For every window, an interval that starts before the window start
    and ends after the window end gets nothing from either plotting
    function, no line and no label: what the functions add to the axes is
    what they add for the table without that interval, and nothing at all
    if every interval of the table spans the window. *)
Theorem spanning_interval_not_drawn (h : Heap) (ivs : list interval)
    (ws we apo : Z) (label : bool) (height : Qc) (color : string) :
  table_intervals (crossings_obj h) = Some ivs →
  Plot_Crossing_Intervals ws we label color h
    = (Ok (), draw h (concat (markers_absolute ws we label color <$> ivs))) ∧
  Plot_Crossings_As_Minutes_Before ws we apo label height color h
    = (Ok (), draw h (concat (markers_relative ws we apo label height color
                                <$> ivs))) ∧
  (∀ iv, (i_start iv < ws)%Z → (we < i_end iv)%Z →
     markers_absolute ws we label color iv = [] ∧
     markers_relative ws we apo label height color iv = []) ∧
  (∀ before iv after, ivs = before ++ iv :: after →
     (i_start iv < ws)%Z → (we < i_end iv)%Z →
     Plot_Crossing_Intervals ws we label color h
       = (Ok (), draw h (concat (markers_absolute ws we label color
                                   <$> before ++ after))) ∧
     Plot_Crossings_As_Minutes_Before ws we apo label height color h
       = (Ok (), draw h (concat (markers_relative ws we apo label height color
                                   <$> before ++ after)))) ∧
  (Forall (λ iv, (i_start iv < ws)%Z ∧ (we < i_end iv)%Z) ivs →
   Plot_Crossing_Intervals ws we label color h = (Ok (), h) ∧
   Plot_Crossings_As_Minutes_Before ws we apo label height color h
     = (Ok (), h)).
Proof.
  intros Hivs.
  assert (∀ iv, (i_start iv < ws)%Z → (we < i_end iv)%Z →
                ¬ selected ws we iv) as Hspan.
  { intros iv Hs He. unfold selected, strictly_inside. lia. }
  pose proof (Plot_Crossing_Intervals_intervals ws we label color h ivs Hivs)
    as Habs.
  pose proof (Plot_Crossings_As_Minutes_Before_intervals
                ws we apo label height color h ivs Hivs) as Hrel.
  split; [done|]. split; [done|]. split; [|split].
  - intros iv Hs He. split.
    + by apply markers_absolute_nil, Hspan.
    + by apply markers_relative_nil, Hspan.
  - intros before iv after -> Hs He. rewrite Habs, Hrel.
    rewrite !concat_fmap_skip; [done| |].
    + by apply markers_relative_nil, Hspan.
    + by apply markers_absolute_nil, Hspan.
  - intros Hall. rewrite Habs, Hrel.
    rewrite !concat_all_nil, draw_nil; [done| |].
    + apply Forall_fmap. revert Hall. apply List.Forall_impl.
      intros iv [Hs He]. by apply markers_relative_nil, Hspan.
    + apply Forall_fmap. revert Hall. apply List.Forall_impl.
      intros iv [Hs He]. by apply markers_absolute_nil, Hspan.
Qed.

Lemma spanning_interval_not_drawn_witness :
  table_intervals (crossings_obj Example.heap) = Some Example.intervals ∧
  Plot_Crossing_Intervals Example.window_start Example.window_end
      default_label default_color Example.heap
    = (Ok (), draw Example.heap
                (concat (markers_absolute Example.window_start
                           Example.window_end default_label default_color
                           <$> Example.intervals))) ∧
  Plot_Crossings_As_Minutes_Before Example.window_start Example.window_end
      Example.apoapsis default_label default_height default_color
      Example.heap
    = (Ok (), draw Example.heap
                (concat (markers_relative Example.window_start
                           Example.window_end Example.apoapsis default_label
                           default_height default_color
                           <$> Example.intervals))) ∧
  (∀ iv, (i_start iv < Example.window_start)%Z →
         (Example.window_end < i_end iv)%Z →
     markers_absolute Example.window_start Example.window_end
         default_label default_color iv = [] ∧
     markers_relative Example.window_start Example.window_end
         Example.apoapsis default_label default_height default_color iv = []) ∧
  (∀ before iv after, Example.intervals = before ++ iv :: after →
     (i_start iv < Example.window_start)%Z →
     (Example.window_end < i_end iv)%Z →
     Plot_Crossing_Intervals Example.window_start Example.window_end
         default_label default_color Example.heap
       = (Ok (), draw Example.heap
                   (concat (markers_absolute Example.window_start
                              Example.window_end default_label default_color
                              <$> before ++ after))) ∧
     Plot_Crossings_As_Minutes_Before Example.window_start Example.window_end
         Example.apoapsis default_label default_height default_color
         Example.heap
       = (Ok (), draw Example.heap
                   (concat (markers_relative Example.window_start
                              Example.window_end Example.apoapsis
                              default_label default_height default_color
                              <$> before ++ after)))) ∧
  (Forall (λ iv, (i_start iv < Example.window_start)%Z ∧
                 (Example.window_end < i_end iv)%Z) Example.intervals →
   Plot_Crossing_Intervals Example.window_start Example.window_end
       default_label default_color Example.heap = (Ok (), Example.heap) ∧
   Plot_Crossings_As_Minutes_Before Example.window_start Example.window_end
       Example.apoapsis default_label default_height default_color
       Example.heap = (Ok (), Example.heap)).
Proof.
  split; [vm_compute; reflexivity|].
  apply (spanning_interval_not_drawn Example.heap Example.intervals).
  vm_compute; reflexivity.
Defined.

(** C5.  In [Plot_Crossings_As_Minutes_Before] every line drawn for an
    interval stands at the apoapsis time minus the start, or minus the end,
    of the interval, in minutes; a selected interval has both lines.  So a
    selected interval that starts ten minutes before the apoapsis has a line
    at +10, and one that starts five minutes after it has a line at -5. *)
Theorem relative_line_positions (h : Heap) (ivs : list interval)
    (ws we apo : Z) (label : bool) (height : Qc) (color : string) :
  table_intervals (crossings_obj h) = Some ivs →
  ∃ d_rel : list (list artist),
    Plot_Crossings_As_Minutes_Before ws we apo label height color h
      = (Ok (), draw h (concat d_rel)) ∧
    Forall2 (λ iv d,
        (∀ x c ls, AxVLine x c ls ∈ d →
           x = VFloat (total_minutes (apo - i_start iv)) ∨
           x = VFloat (total_minutes (apo - i_end iv))) ∧
        (selected ws we iv →
           ∃ lbl, d = lbl ++
             [AxVLine (VFloat (total_minutes (apo - i_start iv))) color "dashed";
              AxVLine (VFloat (total_minutes (apo - i_end iv))) color "dashed"]) ∧
        (selected ws we iv → i_start iv = (apo - datetime.minutes 10)%Z →
           AxVLine (VFloat (Qc_of_Z 10)) color "dashed" ∈ d) ∧
        (selected ws we iv → i_start iv = (apo + datetime.minutes 5)%Z →
           AxVLine (VFloat (Qc_of_Z (-5))) color "dashed" ∈ d))
      ivs d_rel.
Proof.
  intros Hivs.
  exists (markers_relative ws we apo label height color <$> ivs).
  split; [by apply Plot_Crossings_As_Minutes_Before_intervals|].
  apply Forall2_fmap_r_intro. intros iv. unfold markers_relative.
  destruct (decide (selected ws we iv)) as [Hsel|Hsel].
  - split; [|split; [|split]].
    + intros x c ls Hin. destruct label; simpl in Hin.
      * repeat (apply elem_of_cons in Hin as [Hin|Hin]; [naive_solver|]).
        by apply elem_of_nil in Hin.
      * repeat (apply elem_of_cons in Hin as [Hin|Hin]; [naive_solver|]).
        by apply elem_of_nil in Hin.
    + intros _. by eexists.
    + intros _ Hs. rewrite Hs.
      replace (apo - (apo - datetime.minutes 10))%Z
        with (datetime.minutes 10) by lia.
      rewrite total_minutes_minutes.
      apply elem_of_app. right. by left.
    + intros _ Hs. rewrite Hs.
      replace (apo - (apo + datetime.minutes 5))%Z
        with (datetime.minutes (-5)) by (unfold datetime.minutes; lia).
      rewrite total_minutes_minutes.
      apply elem_of_app. right. by left.
  - split; [|split; [|split]]; try done.
    intros x c ls Hin. by apply elem_of_nil in Hin.
Qed.

Lemma relative_line_positions_witness :
  table_intervals (crossings_obj Example.heap) = Some Example.intervals ∧
  ∃ d_rel : list (list artist),
    Plot_Crossings_As_Minutes_Before Example.window_start Example.window_end
        Example.apoapsis default_label default_height default_color
        Example.heap
      = (Ok (), draw Example.heap (concat d_rel)) ∧
    Forall2 (λ iv d,
        (∀ x c ls, AxVLine x c ls ∈ d →
           x = VFloat (total_minutes (Example.apoapsis - i_start iv)) ∨
           x = VFloat (total_minutes (Example.apoapsis - i_end iv))) ∧
        (selected Example.window_start Example.window_end iv →
           ∃ lbl, d = lbl ++
             [AxVLine (VFloat (total_minutes (Example.apoapsis - i_start iv)))
                default_color "dashed";
              AxVLine (VFloat (total_minutes (Example.apoapsis - i_end iv)))
                default_color "dashed"]) ∧
        (selected Example.window_start Example.window_end iv →
         i_start iv = (Example.apoapsis - datetime.minutes 10)%Z →
           AxVLine (VFloat (Qc_of_Z 10)) default_color "dashed" ∈ d) ∧
        (selected Example.window_start Example.window_end iv →
         i_start iv = (Example.apoapsis + datetime.minutes 5)%Z →
           AxVLine (VFloat (Qc_of_Z (-5))) default_color "dashed" ∈ d))
      Example.intervals d_rel.
Proof.
  split; [vm_compute; reflexivity|].
  apply (relative_line_positions Example.heap Example.intervals).
  vm_compute; reflexivity.
Defined.

(** C9.  Neither plotting function changes the crossings table: whatever the
    table and the arguments, and whether the call returns or raises, the
    table in the heap after the call is the table before it, and the heap
    after the call is the heap before it with artists added to the axes. *)
Theorem crossings_not_mutated (h : Heap) (ws we apo : Z) (label : bool)
    (height : Qc) (color : string) :
  let h_abs := snd (Plot_Crossing_Intervals ws we label color h) in
  let h_rel :=
    snd (Plot_Crossings_As_Minutes_Before ws we apo label height color h) in
  crossings_obj h_abs = crossings_obj h ∧
  crossings_obj h_rel = crossings_obj h ∧
  (∃ l, h_abs = draw h l) ∧
  (∃ l, h_rel = draw h l).
Proof.
  intros h_abs h_rel.
  destruct (adds_only_Plot_Crossing_Intervals ws we label color h) as [l1 H1].
  destruct (adds_only_Plot_Crossings_As_Minutes_Before
              ws we apo label height color h) as [l2 H2].
  fold h_abs in H1. fold h_rel in H2.
  rewrite H1, H2. repeat split; eauto.
Qed.



(** C7.  With labels on, the label of a selected interval reads, in both
    plotting functions, as the type of the interval in upper case with each
    underscore replaced by a space: the code's [upper] then [replace] is
    that normalisation, and "magnetopause_crossing" reads
    "MAGNETOPAUSE CROSSING". *)
Theorem label_text (h : Heap) (ivs : list interval) (ws we apo : Z)
    (height : Qc) (color : string) :
  table_intervals (crossings_obj h) = Some ivs →
  ∃ d_abs d_rel : list (list artist),
    Plot_Crossing_Intervals ws we true color h
      = (Ok (), draw h (concat d_abs)) ∧
    Plot_Crossings_As_Minutes_Before ws we apo true height color h
      = (Ok (), draw h (concat d_rel)) ∧
    ∀ i iv, ivs !! i = Some iv → selected ws we iv →
      let text := normalise (i_type iv) in
      (∃ x y lines,
         d_abs !! i = Some (Text x y text transAxes color "center" "center"
                              :: lines) ∧
         ∀ a, a ∈ lines → ∃ t c ls, a = AxVLine t c ls) ∧
      (∃ x y lines,
         d_rel !! i = Some (Text x y text transAxes color "center" "center"
                              :: lines) ∧
         ∀ a, a ∈ lines → ∃ t c ls, a = AxVLine t c ls) ∧
      text = str.replace (str.upper (i_type iv)) "_" " " ∧
      (i_type iv = "magnetopause_crossing" → text = "MAGNETOPAUSE CROSSING").
Proof.
  intros Hivs.
  exists (markers_absolute ws we true color <$> ivs),
         (markers_relative ws we apo true height color <$> ivs).
  split; [by apply Plot_Crossing_Intervals_intervals|].
  split; [by apply Plot_Crossings_As_Minutes_Before_intervals|].
  intros i iv Hi Hsel text. rewrite !list_lookup_fmap, Hi. simpl.
  unfold markers_absolute, markers_relative.
  destruct (decide (selected ws we iv)); [|done]. simpl.
  split; [|split; [|split]].
  - do 3 eexists. split; [reflexivity|]. intros a Ha.
    repeat (apply elem_of_cons in Ha as [->|Ha]; [by do 3 eexists|]).
    by apply elem_of_nil in Ha.
  - do 3 eexists. split; [reflexivity|]. intros a Ha.
    repeat (apply elem_of_cons in Ha as [->|Ha]; [by do 3 eexists|]).
    by apply elem_of_nil in Ha.
  - subst text. by rewrite upper_replace_normalise.
  - intros Hty. subst text. by rewrite Hty.
Qed.

Lemma label_text_witness :
  table_intervals (crossings_obj Example.heap) = Some Example.intervals ∧
  ∃ d_abs d_rel : list (list artist),
    Plot_Crossing_Intervals Example.window_start Example.window_end true
        default_color Example.heap
      = (Ok (), draw Example.heap (concat d_abs)) ∧
    Plot_Crossings_As_Minutes_Before Example.window_start Example.window_end
        Example.apoapsis true default_height default_color Example.heap
      = (Ok (), draw Example.heap (concat d_rel)) ∧
    ∀ i iv, Example.intervals !! i = Some iv →
      selected Example.window_start Example.window_end iv →
      let text := normalise (i_type iv) in
      (∃ x y lines,
         d_abs !! i = Some (Text x y text transAxes default_color
                              "center" "center" :: lines) ∧
         ∀ a, a ∈ lines → ∃ t c ls, a = AxVLine t c ls) ∧
      (∃ x y lines,
         d_rel !! i = Some (Text x y text transAxes default_color
                              "center" "center" :: lines) ∧
         ∀ a, a ∈ lines → ∃ t c ls, a = AxVLine t c ls) ∧
      text = str.replace (str.upper (i_type iv)) "_" " " ∧
      (i_type iv = "magnetopause_crossing" → text = "MAGNETOPAUSE CROSSING").
Proof.
  split; [vm_compute; reflexivity|].
  apply (label_text Example.heap Example.intervals).
  vm_compute; reflexivity.
Defined.

(** C10.  When the window start equals the window end, the test of the
    loops is true for no row, so that neither function draws anything or
    raises ZeroDivisionError, whatever the table; on a table of crossing
    intervals no interval is selected and both functions return normally
    with the heap unchanged.  The division of the label position, which
    would raise ZeroDivisionError on such a window, is therefore never
    evaluated. *)
Theorem empty_window_draws_nothing (h : Heap) (w apo : Z) (label : bool)
    (height : Qc) (color : string) :
  (∀ r, crossing_in_plot r w w ≠ Ok true) ∧
  (∀ t, label_position t w w = Raise ZeroDivisionError) ∧
  (snd (Plot_Crossing_Intervals w w label color h) = h ∧
   fst (Plot_Crossing_Intervals w w label color h) ≠ Raise ZeroDivisionError) ∧
  (snd (Plot_Crossings_As_Minutes_Before w w apo label height color h) = h ∧
   fst (Plot_Crossings_As_Minutes_Before w w apo label height color h)
     ≠ Raise ZeroDivisionError) ∧
  (∀ ivs, table_intervals (crossings_obj h) = Some ivs →
     Forall (λ iv, ¬ selected w w iv) ivs ∧
     Forall (λ r, crossing_in_plot r w w = Ok false)
       (iterrows (crossings_obj h)) ∧
     Plot_Crossing_Intervals w w label color h = (Ok (), h) ∧
     Plot_Crossings_As_Minutes_Before w w apo label height color h
       = (Ok (), h)).
Proof.
  split; [|split; [|split; [|split]]].
  - intros r. destruct (crossing_in_plot_empty_window r w)
      as [->|(e & -> & _)]; done.
  - intros t. unfold label_position.
    replace (w - w)%Z with 0%Z by lia.
    rewrite total_seconds_0. apply float_truediv_zero.
  - apply quiet_Plot_Crossing_Intervals.
  - apply quiet_Plot_Crossings_As_Minutes_Before.
  - intros ivs Hivs. split; [|split; [|split]].
    + apply Forall_forall. intros iv _. apply not_selected_empty_window.
    + apply mapM_Some in Hivs.
      induction Hivs as [|r iv rows ivs' Hr _ IH]; constructor; [|done].
      rewrite (crossing_in_plot_interval _ _ _ _ Hr).
      by rewrite bool_decide_eq_false_2 by apply not_selected_empty_window.
    + by eapply Plot_Crossing_Intervals_empty_window.
    + by eapply Plot_Crossings_As_Minutes_Before_empty_window.
Qed.

Lemma empty_window_draws_nothing_witness :
  table_intervals (crossings_obj Example.heap) = Some Example.intervals ∧
  Forall (λ iv, ¬ selected Example.window_start Example.window_start iv)
    Example.intervals ∧
  Forall (λ r, crossing_in_plot r Example.window_start Example.window_start
               = Ok false)
    (iterrows (crossings_obj Example.heap)) ∧
  Plot_Crossing_Intervals Example.window_start Example.window_start
      default_label default_color Example.heap = (Ok (), Example.heap) ∧
  Plot_Crossings_As_Minutes_Before Example.window_start Example.window_start
      Example.apoapsis default_label default_height default_color
      Example.heap = (Ok (), Example.heap).
Proof.
  split; [vm_compute; reflexivity|].
  apply (empty_window_draws_nothing Example.heap Example.window_start
           Example.apoapsis default_label default_height default_color).
  vm_compute; reflexivity.
Defined.

(** C2 as stated does not hold: on the example table, with the window start
    for both bounds, neither function raises anything. *)
Lemma zero_width_window_does_not_raise :
  ¬ raises (Plot_Crossing_Intervals Example.window_start Example.window_start
              default_label default_color Example.heap) ∧
  ¬ raises (Plot_Crossings_As_Minutes_Before Example.window_start
              Example.window_start Example.apoapsis default_label
              default_height default_color Example.heap).
Proof.
  assert (table_intervals (crossings_obj Example.heap)
          = Some Example.intervals) as Hivs by (vm_compute; reflexivity).
  split; intros (e & h' & Hraise).
  - by rewrite (Plot_Crossing_Intervals_empty_window _ _ _ _ _ Hivs) in Hraise.
  - by rewrite (Plot_Crossings_As_Minutes_Before_empty_window
                  _ _ _ _ _ _ _ Hivs) in Hraise.
Qed.

(** C2, amended.  Called on a table of crossing intervals with the window
    start equal to the window end, both plotting functions return normally:
    no exception is raised and the axes are left as they were. *)
Theorem zero_width_window_returns (h : Heap) (ivs : list interval)
    (w apo : Z) (label : bool) (height : Qc) (color : string) :
  table_intervals (crossings_obj h) = Some ivs →
  Plot_Crossing_Intervals w w label color h = (Ok (), h) ∧
  Plot_Crossings_As_Minutes_Before w w apo label height color h = (Ok (), h) ∧
  ¬ raises (Plot_Crossing_Intervals w w label color h) ∧
  ¬ raises (Plot_Crossings_As_Minutes_Before w w apo label height color h).
Proof.
  intros Hivs.
  rewrite (Plot_Crossing_Intervals_empty_window _ _ _ _ _ Hivs).
  rewrite (Plot_Crossings_As_Minutes_Before_empty_window _ _ _ _ _ _ _ Hivs).
  repeat split; by intros (e & h' & ?).
Qed.

Lemma zero_width_window_returns_witness :
  table_intervals (crossings_obj Example.heap) = Some Example.intervals ∧
  Plot_Crossing_Intervals Example.window_start Example.window_start
      default_label default_color Example.heap = (Ok (), Example.heap) ∧
  Plot_Crossings_As_Minutes_Before Example.window_start Example.window_start
      Example.apoapsis default_label default_height default_color
      Example.heap = (Ok (), Example.heap) ∧
  ¬ raises (Plot_Crossing_Intervals Example.window_start Example.window_start
              default_label default_color Example.heap) ∧
  ¬ raises (Plot_Crossings_As_Minutes_Before Example.window_start
              Example.window_start Example.apoapsis default_label
              default_height default_color Example.heap).
Proof.
  split; [vm_compute; reflexivity|].
  apply (zero_width_window_returns Example.heap Example.intervals).
  vm_compute; reflexivity.
Defined.

(* ===================================================================== *)
(** ** The loop bodies on arbitrary rows                                  *)
(* ===================================================================== *)

Section Rows.

(** A cell that is neither a timestamp nor NaT cannot be compared with a
    datetime. *)
Lemma value_gt_not_timestamp (v : value) (t : Z) :
  is_timestamp v = false → value_gt v t = Raise TypeError.
Proof. by destruct v. Qed.

(** Where the test, or the midpoint after it, stops on a row whose start
    or end is absent or of the wrong type. *)
Lemma crossing_in_plot_no_start (r : gmap string value) (ws we : Z) :
  r !! "start" = None → crossing_in_plot r ws we = Raise (KeyError "start").
Proof. intros Hs. unfold crossing_in_plot, row_getitem. by rewrite Hs. Qed.

Lemma crossing_in_plot_bad_start (r : gmap string value) (v : value)
    (ws we : Z) :
  r !! "start" = Some v → is_timestamp v = false →
  crossing_in_plot r ws we = Raise TypeError.
Proof.
  intros Hs Hv. unfold crossing_in_plot, row_getitem. rewrite Hs. simpl.
  by rewrite value_gt_not_timestamp.
Qed.

Lemma crossing_in_plot_no_end (r : gmap string value) (s ws we : Z) :
  r !! "start" = Some (VTime s) → r !! "end" = None →
  crossing_in_plot r ws we = Raise (KeyError "end") ∨
  (crossing_in_plot r ws we = Ok true ∧ midpoint_of r = Raise (KeyError "end")).
Proof.
  intros Hs He. unfold crossing_in_plot, midpoint_of, row_getitem.
  rewrite Hs, He. simpl. repeat case_bool_decide; simpl; auto.
Qed.

(** One turn of each loop on a row whose start time is missing. *)
Lemma crossing_in_plot_NaT_start (r : gmap string value) (e ws we : Z) :
  r !! "start" = Some VNaT → r !! "end" = Some (VTime e) →
  crossing_in_plot r ws we = Ok (bool_decide (strictly_inside ws we e)).
Proof.
  intros Hs He. unfold crossing_in_plot, row_getitem, strictly_inside.
  rewrite Hs, He. simpl.
  repeat case_bool_decide; simpl; try done; exfalso; tauto.
Qed.

Lemma Plot_Crossing_Intervals_body_no_start (ws we : Z) (label : bool)
    (color : string) (r : gmap string value) (e : Z) (ty : string) (h : Heap) :
  r !! "start" = Some VNaT → r !! "end" = Some (VTime e) →
  r !! "type" = Some (VStr ty) →
  Plot_Crossing_Intervals_body ws we label color r h =
  (Ok (), draw h (markers_absolute_no_start ws we label color e ty)).
Proof.
  intros Hs He Hty. unfold Plot_Crossing_Intervals_body.
  unfold mbind at 1, M_bind at 1, lift at 1.
  rewrite (crossing_in_plot_NaT_start _ _ _ _ Hs He).
  unfold markers_absolute_no_start.
  case_bool_decide as Hsel; [|by rewrite draw_nil].
  assert (ws < we)%Z as Hw by (unfold strictly_inside in Hsel; lia).
  unfold midpoint_of, lift, mret, M_ret, ax_text, ax_axvline, row_getitem,
    mbind, M_bind, result_bind.
  rewrite Hs, He, Hty. cbv beta iota.
  unfold value_sub, Timedelta_halved, value_add_timedelta, label_position_of.
  cbv beta iota. destruct label.
  - rewrite nan_truediv_nonzero by (apply total_seconds_nonzero; lia).
    unfold value_upper_replace. rewrite upper_replace_normalise.
    unfold draw. cbn [ax_obj crossings_obj]. by rewrite <- !app_assoc.
  - unfold draw. cbn [ax_obj crossings_obj]. by rewrite <- !app_assoc.
Qed.

Lemma Plot_Crossings_As_Minutes_Before_body_no_start (ws we apo : Z)
    (label : bool) (height : Qc) (color : string) (r : gmap string value)
    (e : Z) (ty : string) (h : Heap) :
  r !! "start" = Some VNaT → r !! "end" = Some (VTime e) →
  r !! "type" = Some (VStr ty) →
  Plot_Crossings_As_Minutes_Before_body ws we apo label height color r h =
  (Ok (), draw h (markers_relative_no_start ws we apo label height color e ty)).
Proof.
  intros Hs He Hty. unfold Plot_Crossings_As_Minutes_Before_body.
  unfold mbind at 1, M_bind at 1, lift at 1.
  rewrite (crossing_in_plot_NaT_start _ _ _ _ Hs He).
  unfold markers_relative_no_start.
  case_bool_decide as Hsel; [|by rewrite draw_nil].
  assert (ws < we)%Z as Hw by (unfold strictly_inside in Hsel; lia).
  pose proof (minutes_before_time apo e) as Hme.
  assert (minutes_before apo VNaT = Ok VNaN) as Hms.
  { unfold minutes_before, datetime_sub_value. cbn [mbind result_bind].
    apply nan_truediv_nonzero. by apply Qc_of_Z_nonzero. }
  unfold midpoint_of, lift, mret, M_ret, ax_text, ax_axvline, row_getitem,
    mbind, M_bind, result_bind.
  rewrite Hs, He, Hty. cbv beta iota. rewrite Hms, Hme. cbv beta iota.
  unfold value_sub, Timedelta_halved, value_add_timedelta, label_position_of.
  cbv beta iota. destruct label.
  - rewrite nan_truediv_nonzero by (apply total_seconds_nonzero; lia).
    unfold value_upper_replace. rewrite upper_replace_normalise.
    unfold draw. cbn [ax_obj crossings_obj]. by rewrite <- !app_assoc.
  - unfold draw. cbn [ax_obj crossings_obj]. by rewrite <- !app_assoc.
Qed.

(** Both loop bodies stop where the test or the midpoint stops, with the
    heap as it was. *)
Lemma Plot_Crossing_Intervals_body_stops (ws we : Z) (label : bool)
    (color : string) (r : gmap string value) (ex : exn) (h : Heap) :
  crossing_in_plot r ws we = Raise ex ∨
  (crossing_in_plot r ws we = Ok true ∧ midpoint_of r = Raise ex) →
  Plot_Crossing_Intervals_body ws we label color r h = (Raise ex, h).
Proof.
  unfold Plot_Crossing_Intervals_body, mbind, M_bind, lift.
  by intros [->|[-> ->]].
Qed.

Lemma Plot_Crossings_As_Minutes_Before_body_stops (ws we apo : Z)
    (label : bool) (height : Qc) (color : string) (r : gmap string value)
    (ex : exn) (h : Heap) :
  crossing_in_plot r ws we = Raise ex ∨
  (crossing_in_plot r ws we = Ok true ∧ midpoint_of r = Raise ex) →
  Plot_Crossings_As_Minutes_Before_body ws we apo label height color r h
  = (Raise ex, h).
Proof.
  unfold Plot_Crossings_As_Minutes_Before_body, mbind, M_bind, lift.
  by intros [->|[-> ->]].
Qed.

(** A loop whose turns all return, and a loop that raises at some turn
    after turns that return. *)
Lemma for_all_ok {A} (body : A → M unit) (xs : list A)
    (ls : list (list artist)) (h : Heap) :
  Forall2 (λ x l, ∀ h, body x h = (Ok (), draw h l)) xs ls →
  for_ xs body h = (Ok (), draw h (concat ls)).
Proof.
  intros Hall. revert h. induction Hall as [|x l xs ls Hx _ IH]; intros h.
  - simpl. by rewrite draw_nil.
  - simpl. unfold mbind, M_bind. by rewrite Hx, IH, draw_draw.
Qed.

Lemma for_raise_after {A} (body : A → M unit) (xs : list A)
    (ls : list (list artist)) (x : A) (ys : list A) (e : exn) (h : Heap) :
  Forall2 (λ x l, ∀ h, body x h = (Ok (), draw h l)) xs ls →
  (∀ h, body x h = (Raise e, h)) →
  for_ (xs ++ x :: ys) body h = (Raise e, draw h (concat ls)).
Proof.
  intros Hall Hx. revert h. induction Hall as [|x' l xs ls Hx' _ IH]; intros h.
  - simpl. unfold mbind, M_bind. by rewrite Hx, draw_nil.
  - simpl. unfold mbind, M_bind. by rewrite Hx', IH, draw_draw.
Qed.

Lemma for_raise_first {A} (body : A → M unit) (x : A) (ys : list A)
    (e : exn) (h : Heap) :
  body x h = (Raise e, h) → for_ (x :: ys) body h = (Raise e, h).
Proof. intros Hx. simpl. unfold mbind, M_bind. by rewrite Hx. Qed.

Lemma for_unchanged {A} (body : A → M unit) (xs : list A) (h : Heap) :
  (∀ x h, snd (body x h) = h) → snd (for_ xs body h) = h.
Proof.
  intros Hbody. induction xs as [|x xs IH]; [done|].
  simpl. unfold mbind, M_bind. pose proof (Hbody x h) as Hx.
  destruct (body x h) as [[[]|e] h1]; simpl in *; by subst.
Qed.

Lemma Plot_Crossing_Intervals_body_skips (ws we : Z) (label : bool)
    (color : string) (r : gmap string value) (h : Heap) :
  crossing_in_plot r ws we ≠ Ok true →
  snd (Plot_Crossing_Intervals_body ws we label color r h) = h.
Proof.
  unfold Plot_Crossing_Intervals_body, mbind, M_bind, lift.
  by destruct (crossing_in_plot r ws we) as [[]|].
Qed.

Lemma Plot_Crossings_As_Minutes_Before_body_skips (ws we apo : Z)
    (label : bool) (height : Qc) (color : string) (r : gmap string value)
    (h : Heap) :
  crossing_in_plot r ws we ≠ Ok true →
  snd (Plot_Crossings_As_Minutes_Before_body ws we apo label height color r h)
  = h.
Proof.
  unfold Plot_Crossings_As_Minutes_Before_body, mbind, M_bind, lift.
  by destruct (crossing_in_plot r ws we) as [[]|].
Qed.

(** The rows of a frame, cell by cell. *)
Lemma row_lookup (df : DataFrame) (i : nat) (k : string) :
  row df i !! k = columns df !! k ≫= (λ col : list value, col !! i).
Proof. unfold row. by rewrite lookup_omap. Qed.

Lemma iterrows_lookup (df : DataFrame) (i : nat) :
  (i < index_len df)%nat → iterrows df !! i = Some (row df i).
Proof.
  intros Hi. unfold iterrows. rewrite list_lookup_fmap.
  by rewrite lookup_seq_lt.
Qed.

Lemma iterrows_cons (df : DataFrame) :
  (0 < index_len df)%nat →
  ∃ rows, iterrows df = row df 0 :: rows.
Proof.
  intros Hn. unfold iterrows. destruct (index_len df) as [|n]; [lia|].
  simpl. by eexists.
Qed.

Lemma iterrows_no_column (df : DataFrame) (k : string) :
  columns df !! k = None → Forall (λ r, r !! k = None) (iterrows df).
Proof.
  intros Hk. unfold iterrows. apply Forall_fmap, Forall_forall.
  intros i _. simpl. by rewrite row_lookup, Hk.
Qed.

(** A table whose rows all have two timestamps: how each loop goes when
    the type of a row is not read, resp. is not there. *)
Lemma for_spans_unlabelled (body : gmap string value → M unit)
    (lines : Z → Z → list artist) (ws we : Z)
    (rows : list (gmap string value)) (spans : list (Z * Z)) (h : Heap) :
  (∀ r s e h, r !! "start" = Some (VTime s) → r !! "end" = Some (VTime e) →
     body r h = if bool_decide (strictly_inside ws we s ∨ strictly_inside ws we e)
                then (Ok (), draw h (lines s e)) else (Ok (), h)) →
  Forall2 (λ r se, r !! "start" = Some (VTime se.1) ∧
                   r !! "end" = Some (VTime se.2)) rows spans →
  for_ rows body h =
  (Ok (), draw h (concat (
     (λ se, if bool_decide (strictly_inside ws we se.1 ∨
                            strictly_inside ws we se.2)
            then lines se.1 se.2 else []) <$> spans))).
Proof.
  intros Hbody Hrows. apply for_all_ok. apply Forall2_fmap_r.
  eapply Forall2_impl; [|exact Hrows].
  intros r [s e] [Hs He] h0. simpl in *. rewrite (Hbody _ _ _ _ Hs He).
  case_bool_decide; [done|]. by rewrite draw_nil.
Qed.

Lemma for_spans_untyped (body : gmap string value → M unit) (ws we : Z)
    (rows : list (gmap string value)) (spans : list (Z * Z)) (h : Heap) :
  (∀ r s e h, r !! "start" = Some (VTime s) → r !! "end" = Some (VTime e) →
     r !! "type" = None →
     body r h = if bool_decide (strictly_inside ws we s ∨ strictly_inside ws we e)
                then (Raise (KeyError "type"), h) else (Ok (), h)) →
  Forall2 (λ r se, r !! "start" = Some (VTime se.1) ∧
                   r !! "end" = Some (VTime se.2)) rows spans →
  Forall (λ r, r !! "type" = None) rows →
  (Exists (λ se, strictly_inside ws we se.1 ∨ strictly_inside ws we se.2) spans →
   for_ rows body h = (Raise (KeyError "type"), h)) ∧
  (Forall (λ se, ¬ (strictly_inside ws we se.1 ∨ strictly_inside ws we se.2)) spans →
   for_ rows body h = (Ok (), h)).
Proof.
  intros Hbody Hrows. induction Hrows as [|r [s e] rows spans [Hs He] _ IH];
    intros Hty.
  - split; [intros Hex; inversion Hex|done].
  - inversion Hty as [|? ? Hr Hty']; subst. destruct (IH Hty') as [IH1 IH2].
    simpl in *. pose proof (Hbody r s e h Hs He Hr) as Hb.
    case_bool_decide as Hsel.
    + split.
      * intros _. unfold mbind, M_bind. by rewrite Hb.
      * intros Hall. inversion Hall; subst. done.
    + unfold mbind, M_bind. rewrite Hb. split.
      * intros Hex. inversion Hex; subst; [done|auto].
      * intros Hall. inversion Hall; subst. auto.
Qed.

(** The rows of a frame built from six columns of the length of its
    index: the cells the plotting functions read. *)
Lemma loaded_row (n : nat) (c1 c2 c3 c4 c5 c6 : Series) (i : nat) :
  let df := {| index_len := n;
               columns := list_to_map
                 [("start", c1); ("end", c2); ("start_x_msm", c3);
                  ("start_y_msm", c4); ("start_z_msm", c5); ("type", c6)] |} in
  row df i !! "start" = c1 !! i ∧
  row df i !! "end" = c2 !! i ∧
  row df i !! "type" = c6 !! i.
Proof. intros df. by rewrite !row_lookup. Qed.

End Rows.

(* ===================================================================== *)
(** ** Further properties of the plotting functions                       *)
(* ===================================================================== *)

(** X3.  A table without a start column is accepted when it has no row,
    and makes both plotting functions raise KeyError for start, with
    nothing drawn, as soon as it has one. *)
Theorem missing_start_column (h : Heap) (ws we apo : Z) (label : bool)
    (height : Qc) (color : string) :
  columns (crossings_obj h) !! "start" = None →
  (index_len (crossings_obj h) = 0%nat →
   Plot_Crossing_Intervals ws we label color h = (Ok (), h) ∧
   Plot_Crossings_As_Minutes_Before ws we apo label height color h
     = (Ok (), h)) ∧
  ((0 < index_len (crossings_obj h))%nat →
   Plot_Crossing_Intervals ws we label color h
     = (Raise (KeyError "start"), h) ∧
   Plot_Crossings_As_Minutes_Before ws we apo label height color h
     = (Raise (KeyError "start"), h)).
Proof.
  intros Hcol. split.
  - intros Hn.
    unfold Plot_Crossing_Intervals, Plot_Crossings_As_Minutes_Before,
      mbind, M_bind, crossings_iterrows, iterrows.
    by rewrite Hn.
  - intros Hn. destruct (iterrows_cons _ Hn) as [rows Hrows].
    assert (row (crossings_obj h) 0 !! "start" = None) as Hs
      by (by rewrite row_lookup, Hcol).
    rewrite Plot_Crossing_Intervals_loop,
      Plot_Crossings_As_Minutes_Before_loop.
    rewrite Hrows. split.
    + apply for_raise_first.
      apply Plot_Crossing_Intervals_body_stops. left.
      by apply crossing_in_plot_no_start.
    + apply for_raise_first.
      apply Plot_Crossings_As_Minutes_Before_body_stops. left.
      by apply crossing_in_plot_no_start.
Qed.

Lemma missing_start_column_witness :
  Plot_Crossing_Intervals Example.window_start Example.window_end
      default_label default_color (Example2.heap_of Example2.no_start)
    = (Raise (KeyError "start"), Example2.heap_of Example2.no_start) ∧
  Plot_Crossings_As_Minutes_Before Example.window_start Example.window_end
      Example.apoapsis default_label default_height default_color
      (Example2.heap_of Example2.no_start)
    = (Raise (KeyError "start"), Example2.heap_of Example2.no_start).
Proof.
  apply (missing_start_column (Example2.heap_of Example2.no_start)).
  - reflexivity.
  - vm_compute. lia.
Defined.

(** X4.  A table whose first row has a start time but which has no end
    column makes both plotting functions raise KeyError for end with
    nothing drawn, whether or not the start lies in the window. *)
Theorem missing_end_column (h : Heap) (c : list value) (s : Z)
    (ws we apo : Z) (label : bool) (height : Qc) (color : string) :
  (0 < index_len (crossings_obj h))%nat →
  columns (crossings_obj h) !! "start" = Some c →
  c !! 0%nat = Some (VTime s) →
  columns (crossings_obj h) !! "end" = None →
  Plot_Crossing_Intervals ws we label color h = (Raise (KeyError "end"), h) ∧
  Plot_Crossings_As_Minutes_Before ws we apo label height color h
    = (Raise (KeyError "end"), h).
Proof.
  intros Hn Hcol Hc Hend. destruct (iterrows_cons _ Hn) as [rows Hrows].
  assert (row (crossings_obj h) 0 !! "start" = Some (VTime s)) as Hs
    by (by rewrite row_lookup, Hcol).
  assert (row (crossings_obj h) 0 !! "end" = None) as He
    by (by rewrite row_lookup, Hend).
  rewrite Plot_Crossing_Intervals_loop, Plot_Crossings_As_Minutes_Before_loop.
  rewrite Hrows. split.
  - apply for_raise_first.
    apply Plot_Crossing_Intervals_body_stops.
    by eapply crossing_in_plot_no_end.
  - apply for_raise_first.
    apply Plot_Crossings_As_Minutes_Before_body_stops.
    by eapply crossing_in_plot_no_end.
Qed.

Lemma missing_end_column_witness :
  Plot_Crossing_Intervals Example.window_start Example.window_end
      default_label default_color (Example2.heap_of Example2.no_end)
    = (Raise (KeyError "end"), Example2.heap_of Example2.no_end) ∧
  Plot_Crossings_As_Minutes_Before Example.window_start Example.window_end
      Example.apoapsis default_label default_height default_color
      (Example2.heap_of Example2.no_end)
    = (Raise (KeyError "end"), Example2.heap_of Example2.no_end).
Proof.
  apply (missing_end_column (Example2.heap_of Example2.no_end)
           Example.c_start (Example.apoapsis - datetime.minutes 10)).
  - vm_compute. lia.
  - reflexivity.
  - reflexivity.
  - reflexivity.
Defined.

(** X5.  With labels off the type of a row is never read: on a table
    whose rows have a start and an end time, whatever else they hold, both
    plotting functions return normally and add the two dashed lines of each
    selected row, in table order, and nothing else. *)
Theorem unlabelled_needs_timestamps_only (h : Heap) (spans : list (Z * Z))
    (ws we apo : Z) (height : Qc) (color : string) :
  Forall2 (λ r se, r !! "start" = Some (VTime se.1) ∧
                   r !! "end" = Some (VTime se.2))
    (iterrows (crossings_obj h)) spans →
  Plot_Crossing_Intervals ws we false color h =
    (Ok (), draw h (concat (
       (λ se, if bool_decide (strictly_inside ws we se.1 ∨
                              strictly_inside ws we se.2)
              then [AxVLine (VTime se.1) color "dashed";
                    AxVLine (VTime se.2) color "dashed"]
              else []) <$> spans))) ∧
  Plot_Crossings_As_Minutes_Before ws we apo false height color h =
    (Ok (), draw h (concat (
       (λ se, if bool_decide (strictly_inside ws we se.1 ∨
                              strictly_inside ws we se.2)
              then [AxVLine (VFloat (total_minutes (apo - se.1))) color "dashed";
                    AxVLine (VFloat (total_minutes (apo - se.2))) color "dashed"]
              else []) <$> spans))).
Proof.
  intros Hrows.
  rewrite Plot_Crossing_Intervals_loop, Plot_Crossings_As_Minutes_Before_loop.
  split.
  - apply (for_spans_unlabelled _ (lines_absolute color)); [|done].
    intros r s e h0 Hs He.
    by rewrite (Plot_Crossing_Intervals_body_span _ _ _ _ _ _ _ _ Hs He).
  - apply (for_spans_unlabelled _ (lines_relative apo color)); [|done].
    intros r s e h0 Hs He.
    by rewrite (Plot_Crossings_As_Minutes_Before_body_span
                  _ _ _ _ _ _ _ _ _ _ Hs He).
Qed.

Lemma unlabelled_needs_timestamps_only_witness :
  Plot_Crossing_Intervals Example.window_start Example.window_end false
      default_color (Example2.heap_of Example2.timestamps_only) =
    (Ok (), draw (Example2.heap_of Example2.timestamps_only) (concat (
       (λ se, if bool_decide
                   (strictly_inside Example.window_start Example.window_end se.1 ∨
                    strictly_inside Example.window_start Example.window_end se.2)
              then [AxVLine (VTime se.1) default_color "dashed";
                    AxVLine (VTime se.2) default_color "dashed"]
              else [])
       <$> Example2.spans))) ∧
  Plot_Crossings_As_Minutes_Before Example.window_start Example.window_end
      Example.apoapsis false default_height default_color
      (Example2.heap_of Example2.timestamps_only) =
    (Ok (), draw (Example2.heap_of Example2.timestamps_only) (concat (
       (λ se, if bool_decide
                   (strictly_inside Example.window_start Example.window_end se.1 ∨
                    strictly_inside Example.window_start Example.window_end se.2)
              then [AxVLine (VFloat (total_minutes (Example.apoapsis - se.1)))
                      default_color "dashed";
                    AxVLine (VFloat (total_minutes (Example.apoapsis - se.2)))
                      default_color "dashed"]
              else [])
       <$> Example2.spans))).
Proof.
  apply (unlabelled_needs_timestamps_only
           (Example2.heap_of Example2.timestamps_only)).
  repeat constructor.
Defined.

(** X6.  With labels on, a table whose rows have a start and an end time
    but which has no type column makes both plotting functions raise
    KeyError for type, with nothing drawn, if some row is selected; if no
    row is selected they return normally with nothing drawn. *)
Theorem missing_type_column (h : Heap) (spans : list (Z * Z))
    (ws we apo : Z) (height : Qc) (color : string) :
  Forall2 (λ r se, r !! "start" = Some (VTime se.1) ∧
                   r !! "end" = Some (VTime se.2))
    (iterrows (crossings_obj h)) spans →
  columns (crossings_obj h) !! "type" = None →
  (Exists (λ se, strictly_inside ws we se.1 ∨ strictly_inside ws we se.2) spans →
   Plot_Crossing_Intervals ws we true color h = (Raise (KeyError "type"), h) ∧
   Plot_Crossings_As_Minutes_Before ws we apo true height color h
     = (Raise (KeyError "type"), h)) ∧
  (Forall (λ se, ¬ (strictly_inside ws we se.1 ∨ strictly_inside ws we se.2)) spans →
   Plot_Crossing_Intervals ws we true color h = (Ok (), h) ∧
   Plot_Crossings_As_Minutes_Before ws we apo true height color h
     = (Ok (), h)).
Proof.
  intros Hrows Hty%iterrows_no_column.
  rewrite Plot_Crossing_Intervals_loop, Plot_Crossings_As_Minutes_Before_loop.
  assert (∀ r s e h0, r !! "start" = Some (VTime s) →
            r !! "end" = Some (VTime e) → r !! "type" = None →
            Plot_Crossing_Intervals_body ws we true color r h0 =
            if bool_decide (strictly_inside ws we s ∨ strictly_inside ws we e)
            then (Raise (KeyError "type"), h0) else (Ok (), h0)) as Habs.
  { intros r s e h0 Hs He Hr.
    rewrite (Plot_Crossing_Intervals_body_span _ _ _ _ _ _ _ _ Hs He).
    unfold row_getitem. by rewrite Hr. }
  assert (∀ r s e h0, r !! "start" = Some (VTime s) →
            r !! "end" = Some (VTime e) → r !! "type" = None →
            Plot_Crossings_As_Minutes_Before_body ws we apo true height color
              r h0 =
            if bool_decide (strictly_inside ws we s ∨ strictly_inside ws we e)
            then (Raise (KeyError "type"), h0) else (Ok (), h0)) as Hrel.
  { intros r s e h0 Hs He Hr.
    rewrite (Plot_Crossings_As_Minutes_Before_body_span
               _ _ _ _ _ _ _ _ _ _ Hs He).
    unfold row_getitem. by rewrite Hr. }
  destruct (for_spans_untyped _ ws we _ _ h Habs Hrows Hty) as [Ha1 Ha2].
  destruct (for_spans_untyped _ ws we _ _ h Hrel Hrows Hty) as [Hb1 Hb2].
  split; intros Hsel; auto.
Qed.

Lemma missing_type_column_witness :
  Plot_Crossing_Intervals Example.window_start Example.window_end true
      default_color (Example2.heap_of Example2.timestamps_only)
    = (Raise (KeyError "type"), Example2.heap_of Example2.timestamps_only) ∧
  Plot_Crossings_As_Minutes_Before Example.window_start Example.window_end
      Example.apoapsis true default_height default_color
      (Example2.heap_of Example2.timestamps_only)
    = (Raise (KeyError "type"), Example2.heap_of Example2.timestamps_only).
Proof.
  apply (missing_type_column (Example2.heap_of Example2.timestamps_only)
           Example2.spans).
  - repeat constructor.
  - reflexivity.
  - apply Exists_cons_hd. left. vm_compute. split; reflexivity.
Defined.

(** X7.  A call is not undone when it fails: if the rows before a row
    whose start is neither a timestamp nor NaT (a str or a float, say) are
    crossing intervals, both plotting functions raise TypeError at that
    row and leave on the axes exactly the markers of the intervals before
    it; the axes have changed as soon as one of those is selected. *)
Theorem failure_keeps_earlier_markers (h : Heap)
    (rows rest : list (gmap string value)) (r : gmap string value)
    (v : value) (ivs : list interval) (ws we apo : Z) (label : bool)
    (height : Qc) (color : string) :
  iterrows (crossings_obj h) = rows ++ r :: rest →
  mapM as_interval rows = Some ivs →
  r !! "start" = Some v → is_timestamp v = false →
  Plot_Crossing_Intervals ws we label color h
    = (Raise TypeError,
       draw h (concat (markers_absolute ws we label color <$> ivs))) ∧
  Plot_Crossings_As_Minutes_Before ws we apo label height color h
    = (Raise TypeError,
       draw h (concat (markers_relative ws we apo label height color
                         <$> ivs))) ∧
  (Exists (selected ws we) ivs →
   ax_obj (snd (Plot_Crossing_Intervals ws we label color h)) ≠ ax_obj h ∧
   ax_obj (snd (Plot_Crossings_As_Minutes_Before ws we apo label height
                  color h)) ≠ ax_obj h).
Proof.
  intros Hrows Hivs%mapM_Some Hs Hv.
  assert (Plot_Crossing_Intervals ws we label color h
          = (Raise TypeError,
             draw h (concat (markers_absolute ws we label color <$> ivs))))
    as Habs.
  { rewrite Plot_Crossing_Intervals_loop, Hrows. apply for_raise_after.
    - apply Forall2_fmap_r. eapply Forall2_impl; [|exact Hivs].
      intros r0 iv Hr0 h0. simpl.
      by apply Plot_Crossing_Intervals_body_interval.
    - intros h0. apply Plot_Crossing_Intervals_body_stops. left.
      by eapply crossing_in_plot_bad_start. }
  assert (Plot_Crossings_As_Minutes_Before ws we apo label height color h
          = (Raise TypeError,
             draw h (concat (markers_relative ws we apo label height color
                               <$> ivs)))) as Hrel.
  { rewrite Plot_Crossings_As_Minutes_Before_loop, Hrows.
    apply for_raise_after.
    - apply Forall2_fmap_r. eapply Forall2_impl; [|exact Hivs].
      intros r0 iv Hr0 h0. simpl.
      by apply Plot_Crossings_As_Minutes_Before_body_interval.
    - intros h0. apply Plot_Crossings_As_Minutes_Before_body_stops. left.
      by eapply crossing_in_plot_bad_start. }
  assert (∀ (f : interval → list artist),
            (∀ iv, f iv = [] ↔ ¬ selected ws we iv) →
            Exists (selected ws we) ivs →
            ax_obj (draw h (concat (f <$> ivs))) ≠ ax_obj h) as Hchanged.
  { intros f Hf Hex Heq. simpl in Heq.
    assert (concat (f <$> ivs) = []) as Hnil.
    { apply (inj (app (ax_obj h))). by rewrite app_nil_r. }
    clear Habs Hrel Hivs Hrows Heq.
    induction Hex as [iv ivs' Hsel|iv ivs' _ IH]; simpl in Hnil;
      apply app_eq_nil in Hnil as [Hhd Htl].
    - by apply Hf in Hhd.
    - auto. }
  split; [done|]. split; [done|].
  intros Hex. rewrite Habs, Hrel. split; apply Hchanged; try done.
  - intros iv. apply markers_absolute_nil.
  - intros iv. apply markers_relative_nil.
Qed.

Lemma failure_keeps_earlier_markers_witness :
  Plot_Crossing_Intervals Example.window_start Example.window_end
      default_label default_color (Example2.heap_of Example2.faulty)
    = (Raise TypeError,
       draw (Example2.heap_of Example2.faulty)
         (concat (markers_absolute Example.window_start Example.window_end
                    default_label default_color
                    <$> [mkInterval (datetime.minutes 90) (datetime.minutes 92)
                           "bow_shock"]))) ∧
  Plot_Crossings_As_Minutes_Before Example.window_start Example.window_end
      Example.apoapsis default_label default_height default_color
      (Example2.heap_of Example2.faulty)
    = (Raise TypeError,
       draw (Example2.heap_of Example2.faulty)
         (concat (markers_relative Example.window_start Example.window_end
                    Example.apoapsis default_label default_height
                    default_color
                    <$> [mkInterval (datetime.minutes 90) (datetime.minutes 92)
                           "bow_shock"]))) ∧
  (Exists (selected Example.window_start Example.window_end)
     [mkInterval (datetime.minutes 90) (datetime.minutes 92) "bow_shock"] →
   ax_obj (snd (Plot_Crossing_Intervals Example.window_start
                  Example.window_end default_label default_color
                  (Example2.heap_of Example2.faulty)))
     ≠ ax_obj (Example2.heap_of Example2.faulty) ∧
   ax_obj (snd (Plot_Crossings_As_Minutes_Before Example.window_start
                  Example.window_end Example.apoapsis default_label
                  default_height default_color
                  (Example2.heap_of Example2.faulty)))
     ≠ ax_obj (Example2.heap_of Example2.faulty)).
Proof.
  apply (failure_keeps_earlier_markers (Example2.heap_of Example2.faulty)
           [row Example2.faulty 0] [row Example2.faulty 2]
           (row Example2.faulty 1) (VStr "unknown")).
  - reflexivity.
  - vm_compute. reflexivity.
  - vm_compute. reflexivity.
  - reflexivity.
Defined.

(** X17.  A missing start time does not stop a call: a row whose start is
    NaT, among rows that are crossing intervals, raises nothing in either
    plotting function.  It is judged by its end alone; if its end lies
    strictly inside the window it gets, in its place between the markers
    of the rows before and after it, a label at NaN (with labels on), a
    line at NaT, resp. at NaN, for its start and the line of its end, and
    nothing otherwise. *)
Theorem missing_start_time_is_drawn (h : Heap)
    (rows rest : list (gmap string value)) (r : gmap string value)
    (e : Z) (ty : string) (before after : list interval) (ws we apo : Z)
    (label : bool) (height : Qc) (color : string) :
  iterrows (crossings_obj h) = rows ++ r :: rest →
  mapM as_interval rows = Some before →
  mapM as_interval rest = Some after →
  r !! "start" = Some VNaT → r !! "end" = Some (VTime e) →
  r !! "type" = Some (VStr ty) →
  Plot_Crossing_Intervals ws we label color h
    = (Ok (),
       draw h (concat (markers_absolute ws we label color <$> before)
               ++ (if bool_decide (strictly_inside ws we e) then
                     (if label then
                        [Text VNaN (Q2Qc (9 # 10)) (normalise ty) transAxes
                           color "center" "center"]
                      else []) ++
                     [AxVLine VNaT color "dashed";
                      AxVLine (VTime e) color "dashed"]
                   else [])
               ++ concat (markers_absolute ws we label color <$> after))) ∧
  Plot_Crossings_As_Minutes_Before ws we apo label height color h
    = (Ok (),
       draw h (concat (markers_relative ws we apo label height color
                         <$> before)
               ++ (if bool_decide (strictly_inside ws we e) then
                     (if label then
                        [Text VNaN height (normalise ty) transAxes
                           color "center" "center"]
                      else []) ++
                     [AxVLine VNaN color "dashed";
                      AxVLine (VFloat (total_minutes (apo - e))) color "dashed"]
                   else [])
               ++ concat (markers_relative ws we apo label height color
                            <$> after))).
Proof.
  intros Hrows Hb%mapM_Some Ha%mapM_Some Hs He Hty.
  rewrite Plot_Crossing_Intervals_loop, Plot_Crossings_As_Minutes_Before_loop.
  rewrite Hrows. split.
  - rewrite (for_all_ok _ _
               ((markers_absolute ws we label color <$> before)
                ++ markers_absolute_no_start ws we label color e ty
                   :: (markers_absolute ws we label color <$> after))).
    + by rewrite concat_app.
    + apply Forall2_app; [|constructor].
      * apply Forall2_fmap_r. eapply Forall2_impl; [|exact Hb].
        intros r0 iv Hr0 h0. simpl.
        by apply Plot_Crossing_Intervals_body_interval.
      * intros h0. by apply Plot_Crossing_Intervals_body_no_start.
      * apply Forall2_fmap_r. eapply Forall2_impl; [|exact Ha].
        intros r0 iv Hr0 h0. simpl.
        by apply Plot_Crossing_Intervals_body_interval.
  - rewrite (for_all_ok _ _
               ((markers_relative ws we apo label height color <$> before)
                ++ markers_relative_no_start ws we apo label height color e ty
                   :: (markers_relative ws we apo label height color
                         <$> after))).
    + by rewrite concat_app.
    + apply Forall2_app; [|constructor].
      * apply Forall2_fmap_r. eapply Forall2_impl; [|exact Hb].
        intros r0 iv Hr0 h0. simpl.
        by apply Plot_Crossings_As_Minutes_Before_body_interval.
      * intros h0. by apply Plot_Crossings_As_Minutes_Before_body_no_start.
      * apply Forall2_fmap_r. eapply Forall2_impl; [|exact Ha].
        intros r0 iv Hr0 h0. simpl.
        by apply Plot_Crossings_As_Minutes_Before_body_interval.
Qed.

Lemma missing_start_time_is_drawn_witness :
  Plot_Crossing_Intervals Example.window_start Example.window_end
      default_label default_color (Example2.heap_of Example2.gappy)
    = (Ok (),
       draw (Example2.heap_of Example2.gappy)
         (concat (markers_absolute Example.window_start Example.window_end
                    default_label default_color
                    <$> [mkInterval (datetime.minutes 90) (datetime.minutes 92)
                           "bow_shock"])
          ++ (if bool_decide (strictly_inside Example.window_start
                                Example.window_end (datetime.minutes 95)) then
                (if default_label then
                   [Text VNaN (Q2Qc (9 # 10)) (normalise "bow_shock") transAxes
                      default_color "center" "center"]
                 else []) ++
                [AxVLine VNaT default_color "dashed";
                 AxVLine (VTime (datetime.minutes 95)) default_color "dashed"]
              else [])
          ++ concat (markers_absolute Example.window_start Example.window_end
                       default_label default_color
                       <$> [mkInterval (datetime.minutes 105)
                              (datetime.minutes 107) "bow_shock"]))) ∧
  Plot_Crossings_As_Minutes_Before Example.window_start Example.window_end
      Example.apoapsis default_label default_height default_color
      (Example2.heap_of Example2.gappy)
    = (Ok (),
       draw (Example2.heap_of Example2.gappy)
         (concat (markers_relative Example.window_start Example.window_end
                    Example.apoapsis default_label default_height
                    default_color
                    <$> [mkInterval (datetime.minutes 90) (datetime.minutes 92)
                           "bow_shock"])
          ++ (if bool_decide (strictly_inside Example.window_start
                                Example.window_end (datetime.minutes 95)) then
                (if default_label then
                   [Text VNaN default_height (normalise "bow_shock") transAxes
                      default_color "center" "center"]
                 else []) ++
                [AxVLine VNaN default_color "dashed";
                 AxVLine (VFloat (total_minutes
                            (Example.apoapsis - datetime.minutes 95)))
                   default_color "dashed"]
              else [])
          ++ concat (markers_relative Example.window_start Example.window_end
                       Example.apoapsis default_label default_height
                       default_color
                       <$> [mkInterval (datetime.minutes 105)
                              (datetime.minutes 107) "bow_shock"]))).
Proof.
  apply (missing_start_time_is_drawn (Example2.heap_of Example2.gappy)
           [row Example2.gappy 0] [row Example2.gappy 2]
           (row Example2.gappy 1)).
  - reflexivity.
  - vm_compute. reflexivity.
  - vm_compute. reflexivity.
  - vm_compute. reflexivity.
  - vm_compute. reflexivity.
  - vm_compute. reflexivity.
Defined.

(** X8.  On a table of crossing intervals the second function draws what
    the first draws, artist for artist, with each line moved from its time
    to its minutes before the apoapsis and each label set at the given
    height: labels keep their horizontal position and their text. *)
Theorem relative_is_transformed_absolute (h : Heap) (ivs : list interval)
    (ws we apo : Z) (label : bool) (height : Qc) (color : string) :
  table_intervals (crossings_obj h) = Some ivs →
  ∃ l : list artist,
    Plot_Crossing_Intervals ws we label color h = (Ok (), draw h l) ∧
    Plot_Crossings_As_Minutes_Before ws we apo label height color h
      = (Ok (), draw h (relative_artist apo height <$> l)).
Proof.
  intros Hivs.
  exists (concat (markers_absolute ws we label color <$> ivs)).
  split; [by apply Plot_Crossing_Intervals_intervals|].
  rewrite (Plot_Crossings_As_Minutes_Before_intervals _ _ _ _ _ _ _ _ Hivs).
  do 2 f_equal. clear Hivs.
  induction ivs as [|iv ivs IH]; [done|].
  rewrite !fmap_cons. cbn [concat]. rewrite fmap_app, IH. f_equal.
  unfold markers_absolute, markers_relative.
  destruct (decide (selected ws we iv)); [|done]. by destruct label.
Qed.

Lemma relative_is_transformed_absolute_witness :
  table_intervals (crossings_obj Example.heap) = Some Example.intervals ∧
  ∃ l : list artist,
    Plot_Crossing_Intervals Example.window_start Example.window_end
        default_label default_color Example.heap
      = (Ok (), draw Example.heap l) ∧
    Plot_Crossings_As_Minutes_Before Example.window_start Example.window_end
        Example.apoapsis default_label default_height default_color
        Example.heap
      = (Ok (), draw Example.heap
                  (relative_artist Example.apoapsis default_height <$> l)).
Proof.
  split; [vm_compute; reflexivity|].
  apply (relative_is_transformed_absolute Example.heap Example.intervals).
  vm_compute; reflexivity.
Defined.

(** X9.  A window whose end is not after its start selects nothing: on any
    table both plotting functions leave the heap as it is, and on a table
    of crossing intervals they return normally. *)
Theorem improper_window_draws_nothing (h : Heap) (ws we apo : Z)
    (label : bool) (height : Qc) (color : string) :
  (we ≤ ws)%Z →
  snd (Plot_Crossing_Intervals ws we label color h) = h ∧
  snd (Plot_Crossings_As_Minutes_Before ws we apo label height color h) = h ∧
  (∀ ivs, table_intervals (crossings_obj h) = Some ivs →
     Plot_Crossing_Intervals ws we label color h = (Ok (), h) ∧
     Plot_Crossings_As_Minutes_Before ws we apo label height color h
       = (Ok (), h)).
Proof.
  intros Hw.
  assert (∀ r, crossing_in_plot r ws we ≠ Ok true) as Htest.
  { intros r Hr%crossing_in_plot_true. lia. }
  split; [|split].
  - rewrite Plot_Crossing_Intervals_loop. apply for_unchanged.
    intros r h0. by apply Plot_Crossing_Intervals_body_skips.
  - rewrite Plot_Crossings_As_Minutes_Before_loop. apply for_unchanged.
    intros r h0. by apply Plot_Crossings_As_Minutes_Before_body_skips.
  - intros ivs Hivs.
    assert (∀ iv, ¬ selected ws we iv) as Hsel.
    { intros iv Hiv%selected_window_nonempty. lia. }
    rewrite (Plot_Crossing_Intervals_intervals _ _ _ _ _ _ Hivs).
    rewrite (Plot_Crossings_As_Minutes_Before_intervals _ _ _ _ _ _ _ _ Hivs).
    rewrite !concat_all_nil, draw_nil; [done| |].
    + apply Forall_fmap, Forall_forall. intros iv _.
      by apply markers_relative_nil.
    + apply Forall_fmap, Forall_forall. intros iv _.
      by apply markers_absolute_nil.
Qed.

Lemma improper_window_draws_nothing_witness :
  snd (Plot_Crossing_Intervals Example.window_end Example.window_start
         default_label default_color Example.heap) = Example.heap ∧
  snd (Plot_Crossings_As_Minutes_Before Example.window_end
         Example.window_start Example.apoapsis default_label default_height
         default_color Example.heap) = Example.heap ∧
  (∀ ivs, table_intervals (crossings_obj Example.heap) = Some ivs →
     Plot_Crossing_Intervals Example.window_end Example.window_start
         default_label default_color Example.heap = (Ok (), Example.heap) ∧
     Plot_Crossings_As_Minutes_Before Example.window_end Example.window_start
         Example.apoapsis default_label default_height default_color
         Example.heap = (Ok (), Example.heap)).
Proof.
  apply (improper_window_draws_nothing Example.heap Example.window_end
           Example.window_start).
  vm_compute. discriminate.
Defined.

(* ===================================================================== *)
(** ** Where labels and lines fall                                        *)
(* ===================================================================== *)



(** X11.  In [Plot_Crossings_As_Minutes_Before] the markers of a selected
    interval end with its two lines, at positions [p_start] and [p_end]
    such that: a position is positive exactly for a time before the
    apoapsis, negative exactly for a time after it and zero at it; and the
    end line is not right of the start line when the interval does not end
    before it starts, and left of it only if the interval ends after it
    starts. *)
Theorem relative_lines_sign_and_order (h : Heap) (ivs : list interval)
    (ws we apo : Z) (label : bool) (height : Qc) (color : string) :
  table_intervals (crossings_obj h) = Some ivs →
  Plot_Crossings_As_Minutes_Before ws we apo label height color h
    = (Ok (), draw h (concat (markers_relative ws we apo label height color
                                <$> ivs))) ∧
  ∀ iv, selected ws we iv →
    ∃ lbl p_start p_end,
      markers_relative ws we apo label height color iv
        = lbl ++ [AxVLine (VFloat p_start) color "dashed";
                  AxVLine (VFloat p_end) color "dashed"] ∧
      ((0 < p_start)%Qc ↔ (i_start iv < apo)%Z) ∧
      ((p_start < 0)%Qc ↔ (apo < i_start iv)%Z) ∧
      (p_start = 0%Qc ↔ i_start iv = apo) ∧
      ((0 < p_end)%Qc ↔ (i_end iv < apo)%Z) ∧
      ((p_end < 0)%Qc ↔ (apo < i_end iv)%Z) ∧
      ((i_start iv ≤ i_end iv)%Z → (p_end ≤ p_start)%Qc) ∧
      ((p_end < p_start)%Qc → (i_start iv < i_end iv)%Z).
Proof.
  intros Hivs.
  split; [by apply Plot_Crossings_As_Minutes_Before_intervals|].
  intros iv Hsel.
  unfold markers_relative. destruct (decide (selected ws we iv)); [|done].
  do 3 eexists. split; [reflexivity|].
  split; [|split; [|split; [|split; [|split; [|split]]]]].
  - rewrite <- total_minutes_0, <- total_minutes_lt. lia.
  - rewrite <- total_minutes_0, <- total_minutes_lt. lia.
  - split.
    + intros Hz.
      destruct (Z.lt_trichotomy (apo - i_start iv) 0) as [Hlt|[Heq|Hgt]];
        [|lia|].
      * apply total_minutes_lt in Hlt. rewrite Hz, total_minutes_0 in Hlt.
        by apply Qclt_not_eq in Hlt.
      * apply total_minutes_lt in Hgt. rewrite Hz, total_minutes_0 in Hgt.
        by apply Qclt_not_eq in Hgt.
    + intros ->. by rewrite Z.sub_diag, total_minutes_0.
  - rewrite <- total_minutes_0, <- total_minutes_lt. lia.
  - rewrite <- total_minutes_0, <- total_minutes_lt. lia.
  - intros Hle. apply (proj1 (total_minutes_le _ _)). lia.
  - intros Hlt. apply (proj2 (total_minutes_lt _ _)) in Hlt. lia.
Qed.

Lemma relative_lines_sign_and_order_witness :
  table_intervals (crossings_obj Example.heap) = Some Example.intervals ∧
  Plot_Crossings_As_Minutes_Before Example.window_start Example.window_end
      Example.apoapsis default_label default_height default_color
      Example.heap
    = (Ok (), draw Example.heap
                (concat (markers_relative Example.window_start
                           Example.window_end Example.apoapsis default_label
                           default_height default_color
                           <$> Example.intervals))) ∧
  ∀ iv, selected Example.window_start Example.window_end iv →
    ∃ lbl p_start p_end,
      markers_relative Example.window_start Example.window_end
          Example.apoapsis default_label default_height default_color iv
        = lbl ++ [AxVLine (VFloat p_start) default_color "dashed";
                  AxVLine (VFloat p_end) default_color "dashed"] ∧
      ((0 < p_start)%Qc ↔ (i_start iv < Example.apoapsis)%Z) ∧
      ((p_start < 0)%Qc ↔ (Example.apoapsis < i_start iv)%Z) ∧
      (p_start = 0%Qc ↔ i_start iv = Example.apoapsis) ∧
      ((0 < p_end)%Qc ↔ (i_end iv < Example.apoapsis)%Z) ∧
      ((p_end < 0)%Qc ↔ (Example.apoapsis < i_end iv)%Z) ∧
      ((i_start iv ≤ i_end iv)%Z → (p_end ≤ p_start)%Qc) ∧
      ((p_end < p_start)%Qc → (i_start iv < i_end iv)%Z).
Proof.
  split; [vm_compute; reflexivity|].
  apply (relative_lines_sign_and_order Example.heap Example.intervals).
  vm_compute; reflexivity.
Defined.

(** X12.  On a table of crossing intervals each function adds exactly two
    artists per selected interval with labels off and three with labels
    on, and nothing for the other intervals. *)
Theorem artists_per_selected_interval (h : Heap) (ivs : list interval)
    (ws we apo : Z) (label : bool) (height : Qc) (color : string) :
  table_intervals (crossings_obj h) = Some ivs →
  ∃ l_abs l_rel : list artist,
    Plot_Crossing_Intervals ws we label color h = (Ok (), draw h l_abs) ∧
    Plot_Crossings_As_Minutes_Before ws we apo label height color h
      = (Ok (), draw h l_rel) ∧
    length l_abs
      = ((if label then 3 else 2) * length (filter (selected ws we) ivs))%nat ∧
    length l_rel = length l_abs.
Proof.
  intros Hivs.
  exists (concat (markers_absolute ws we label color <$> ivs)),
         (concat (markers_relative ws we apo label height color <$> ivs)).
  split; [by apply Plot_Crossing_Intervals_intervals|].
  split; [by apply Plot_Crossings_As_Minutes_Before_intervals|].
  clear Hivs. induction ivs as [|iv ivs [IH1 IH2]]; [by destruct label|].
  rewrite !fmap_cons. cbn [concat]. rewrite !length_app, IH2, IH1.
  rewrite filter_cons. unfold markers_absolute, markers_relative.
  destruct (decide (selected ws we iv)); destruct label; simpl; lia.
Qed.

Lemma artists_per_selected_interval_witness :
  table_intervals (crossings_obj Example.heap) = Some Example.intervals ∧
  ∃ l_abs l_rel : list artist,
    Plot_Crossing_Intervals Example.window_start Example.window_end
        default_label default_color Example.heap
      = (Ok (), draw Example.heap l_abs) ∧
    Plot_Crossings_As_Minutes_Before Example.window_start Example.window_end
        Example.apoapsis default_label default_height default_color
        Example.heap
      = (Ok (), draw Example.heap l_rel) ∧
    length l_abs
      = ((if default_label then 3 else 2) *
         length (filter (selected Example.window_start Example.window_end)
                   Example.intervals))%nat ∧
    length l_rel = length l_abs.
Proof.
  split; [vm_compute; reflexivity|].
  apply (artists_per_selected_interval Example.heap Example.intervals).
  vm_compute; reflexivity.
Defined.

(** X13.  The text of a label, [type.upper().replace("_", " ")], of a type
    written in ASCII has as many characters as the type, is written in
    ASCII, holds no underscore and no lower-case letter, and is left as it
    is by a second normalisation; a type that is not a str has no label:
    the expression raises AttributeError. *)
Theorem label_text_shape (v : value) :
  (∀ s, v = VStr s → Forall is_ascii (String.list_ascii_of_string s) →
     ∃ text, value_upper_replace v = Ok text ∧
       String.length text = String.length s ∧
       (∀ c, In c (String.list_ascii_of_string text) →
             is_ascii c ∧ c ≠ "_"%char ∧ ¬ is_lower c) ∧
       value_upper_replace (VStr text) = Ok text) ∧
  (¬ is_str v → value_upper_replace v = Raise AttributeError).
Proof.
  split.
  - intros s -> Hascii. exists (normalise s). simpl.
    rewrite upper_replace_normalise.
    assert (∀ c, normalise_char c ≠ "_"%char ∧ ¬ is_lower (normalise_char c) ∧
                 normalise_char (normalise_char c) = normalise_char c ∧
                 (is_ascii c → is_ascii (normalise_char c))) as Hc.
    { intros c. unfold is_lower, is_ascii.
      destruct c as [[] [] [] [] [] [] [] []]; vm_compute;
        (split; [congruence|split; [lia|split; [reflexivity|lia]]]). }
    split; [done|]. split; [apply normalise_length|]. split.
    + induction s as [|c s IH]; simpl; [done|].
      inversion Hascii as [|? ? Hc0 Hs0]; subst.
      intros c' [<-|Hin]; [|by apply IH].
      destruct (Hc c) as (? & ? & ? & Ha). auto.
    + rewrite upper_replace_normalise. f_equal. clear Hascii.
      induction s as [|c s IH]; simpl; [done|]. f_equal; [apply Hc|done].
  - intros Hv. destruct v; try done. destruct Hv. by eexists.
Qed.

Lemma label_text_shape_witness :
  ∃ text, value_upper_replace (VStr "bow_shock") = Ok text ∧
    String.length text = String.length "bow_shock" ∧
    (∀ c, In c (String.list_ascii_of_string text) →
          is_ascii c ∧ c ≠ "_"%char ∧ ¬ is_lower c) ∧
    value_upper_replace (VStr text) = Ok text.
Proof.
  apply (label_text_shape (VStr "bow_shock")); [reflexivity|].
  repeat constructor; vm_compute; lia.
Defined.

(* ===================================================================== *)
(** ** Further properties of Load_Crossings                               *)
(* ===================================================================== *)

(** X14.  When the pickled frame lacks columns, the KeyError of
    [Load_Crossings] names the first absent one in the order start, end,
    start_x_msm, start_y_msm, start_z_msm, Type: the columns before it are
    read and found, the columns after it are not looked at. *)
Theorem Load_Crossings_first_missing (fs : gmap string node)
    (pickle_load : list Byte.byte → result pyobj) (path : string)
    (content : list Byte.byte) (src : DataFrame)
    (before after : list string) (k : string) :
  fs !! path = Some (File content) →
  pickle_load content = Ok (PyDataFrame src) →
  source_fields = before ++ k :: after →
  Forall (λ k', is_Some (columns src !! k')) before →
  columns src !! k = None →
  Load_Crossings fs pickle_load path = Raise (KeyError k).
Proof.
  intros Hfs Hpk Hsplit Hbefore Hk.
  rewrite (Load_Crossings_frame _ _ _ _ _ Hfs Hpk). unfold getitem.
  unfold source_fields in Hsplit.
  repeat (destruct before as [|? before];
          [injection Hsplit as <- <-; by rewrite Hk|];
          injection Hsplit as <- Hsplit;
          inversion Hbefore as [|? ? [? Hcol] Hbefore']; subst;
          rewrite Hcol; cbn [mbind result_bind];
          clear Hbefore Hcol; rename Hbefore' into Hbefore).
  by destruct before.
Qed.

Lemma Load_Crossings_first_missing_witness :
  Load_Crossings Example.fs Example.pickle_load "no_type.pkl"
  = Raise (KeyError "Type").
Proof.
  apply (Load_Crossings_first_missing Example.fs Example.pickle_load
           "no_type.pkl" [Byte.x02] Example.source_untyped
           ["start"; "end"; "start_x_msm"; "start_y_msm"; "start_z_msm"] []).
  - reflexivity.
  - reflexivity.
  - reflexivity.
  - repeat constructor; by eexists.
  - reflexivity.
Defined.

(** X16.  Loading and plotting compose: when the pickled frame is aligned,
    has the six columns, and holds timestamps in start and end and strings
    in Type, [Load_Crossings] returns a table that reads as one crossing
    interval per source row, with the start, end and Type of that row: a
    table of crossing intervals, as the plotting functions take it.  The
    renaming of Type to type is what makes the labels readable. *)
Theorem loaded_table_plots (fs : gmap string node)
    (pickle_load : list Byte.byte → result pyobj) (path : string)
    (content : list Byte.byte) (src : DataFrame)
    (c_start c_end c_type : Series) :
  fs !! path = Some (File content) →
  pickle_load content = Ok (PyDataFrame src) →
  aligned src →
  (∀ k, k ∈ source_fields → is_Some (columns src !! k)) →
  columns src !! "start" = Some c_start → Forall is_time c_start →
  columns src !! "end" = Some c_end → Forall is_time c_end →
  columns src !! "Type" = Some c_type → Forall is_str c_type →
  ∃ df ivs,
    Load_Crossings fs pickle_load path = Ok df ∧
    table_intervals df = Some ivs ∧
    length ivs = index_len src ∧
    (∀ i iv, ivs !! i = Some iv →
       c_start !! i = Some (VTime (i_start iv)) ∧
       c_end !! i = Some (VTime (i_end iv)) ∧
       c_type !! i = Some (VStr (i_type iv))).
Proof.
  intros Hfs Hpk Hal Hcols E1 T1 E2 T2 E6 T6.
  assert (∀ k, k ∈ source_fields →
            ∃ c, columns src !! k = Some c ∧ length c = index_len src) as Hcol.
  { intros k Hk. destruct (Hcols k Hk) as [c Hc]. exists c. eauto. }
  unfold source_fields in Hcol.
  destruct (Hcol "start_x_msm") as (c3 & E3 & L3); [by repeat constructor|].
  destruct (Hcol "start_y_msm") as (c4 & E4 & L4); [by repeat constructor|].
  destruct (Hcol "start_z_msm") as (c5 & E5 & L5); [by repeat constructor|].
  pose proof (Hal _ _ E1) as L1. pose proof (Hal _ _ E2) as L2.
  pose proof (Hal _ _ E6) as L6.
  rewrite (Load_Crossings_frame _ _ _ _ _ Hfs Hpk).
  unfold getitem. rewrite E1, E2, E3, E4, E5, E6. cbn [mbind result_bind].
  rewrite (DataFrame_of_dict_six (index_len src)) by done.
  set (df := {| index_len := index_len src; columns := _ |}).
  assert (∀ i, (i < index_len src)%nat →
            ∃ iv, as_interval (row df i) = Some iv ∧
                  c_start !! i = Some (VTime (i_start iv)) ∧
                  c_end !! i = Some (VTime (i_end iv)) ∧
                  c_type !! i = Some (VStr (i_type iv))) as Hrow.
  { intros i Hi.
    destruct (loaded_row (index_len src) c_start c_end c3 c4 c5 c_type i)
      as (Hs & He & Hty). fold df in Hs, He, Hty.
    destruct (lookup_lt_is_Some_2 c_start i) as [vs Hvs]; [lia|].
    destruct (lookup_lt_is_Some_2 c_end i) as [ve Hve]; [lia|].
    destruct (lookup_lt_is_Some_2 c_type i) as [vt Hvt]; [lia|].
    destruct (proj1 (Forall_lookup _ _) T1 _ _ Hvs) as [s ->].
    destruct (proj1 (Forall_lookup _ _) T2 _ _ Hve) as [e ->].
    destruct (proj1 (Forall_lookup _ _) T6 _ _ Hvt) as [ty ->].
    exists (mkInterval s e ty). unfold as_interval.
    by rewrite Hs, He, Hty, Hvs, Hve, Hvt. }
  assert (is_Some (table_intervals df)) as [ivs Hivs].
  { apply mapM_is_Some_2. unfold iterrows. apply Forall_fmap, Forall_forall.
    intros i Hi%in_seq. destruct (Hrow i) as (iv & Hiv & _);
      [subst df; simpl in Hi; lia|].
    simpl. by rewrite Hiv. }
  exists df, ivs. split; [done|]. split; [done|].
  pose proof Hivs as Hall%mapM_Some.
  split.
  - apply Forall2_length in Hall. rewrite <- Hall.
    unfold iterrows. by rewrite length_map, length_seq.
  - intros i iv Hi.
    destruct (Forall2_lookup_r _ _ _ _ _ Hall Hi) as (r & Hr & Hriv).
    assert (i < index_len src)%nat as Hlt.
    { apply lookup_lt_Some in Hr. unfold iterrows in Hr.
      by rewrite length_map, length_seq in Hr. }
    rewrite iterrows_lookup in Hr by done. injection Hr as <-.
    destruct (Hrow i Hlt) as (iv' & Hiv' & Hcells).
    by assert (iv' = iv) as <- by congruence.
Qed.

Lemma loaded_table_plots_witness :
  ∃ df ivs,
    Load_Crossings Example.fs Example.pickle_load "crossings.pkl" = Ok df ∧
    table_intervals df = Some ivs ∧
    length ivs = index_len Example.source ∧
    (∀ i iv, ivs !! i = Some iv →
       Example.c_start !! i = Some (VTime (i_start iv)) ∧
       Example.c_end !! i = Some (VTime (i_end iv)) ∧
       Example.c_type !! i = Some (VStr (i_type iv))).
Proof.
  apply (loaded_table_plots Example.fs Example.pickle_load "crossings.pkl"
           [Byte.x01] Example.source).
  - reflexivity.
  - reflexivity.
  - intros k col H. unfold Example.source in H. simpl in H.
    repeat (apply lookup_insert_Some in H as [[_ <-]|[_ H]]; [reflexivity|]).
    by rewrite lookup_empty in H.
  - intros k Hk. unfold source_fields in Hk.
    repeat (apply elem_of_cons in Hk as [->|Hk]; [by eexists|]).
    by apply elem_of_nil in Hk.
  - reflexivity.
  - repeat constructor; by eexists.
  - reflexivity.
  - repeat constructor; by eexists.
  - reflexivity.
  - repeat constructor; by eexists.
Defined.
